(** * netpoll: descriptor handles (Desc) and their factory

    A shallow embedding of the Go package [netpoll] (handle file and the
    unsupported-platform stub).  The Go code talks to the operating system
    through [os.File], [syscall.SetNonblock] and the [File] method of the
    objects it is given; those calls are modelled by an explicit system
    state (descriptor table and [os.File] objects), and every call is logged
    in a trace so that statements about "what was called, in which order"
    can be made.  [*Desc] values live in a heap of their own, because the
    methods of [Desc] have pointer receivers and [Fd] mutates its receiver. *)

From stdpp Require Import gmap strings list.
From Stdlib Require Import ZArith.

Open Scope Z_scope.

(** ** Go scalars *)

(** [uintptr] is a 64-bit unsigned integer, [int] a 64-bit signed one. *)
Definition uintptr := Z.

(** The conversion [int(u)] for [u : uintptr]: reinterpretation of the 64
    bits in two's complement. *)
Definition int_of_uintptr (u : uintptr) : Z :=
  let r := u mod 2 ^ 64 in
  if r <? 2 ^ 63 then r else r - 2 ^ 64.

(** The conversion [uintptr(i)] for [i : int]. *)
Definition uintptr_of_int (i : Z) : uintptr := i mod 2 ^ 64.

(** ** Errors *)

(** Go [error] values that the code can produce or pass along.  [Errno] is
    [syscall.Errno], [SyscallError] is [*os.SyscallError], [PathError] is
    [*os.PathError]; [ErrorString] is the value made by [fmt.Errorf] or
    [errors.New]; [ErrInvalid] and [ErrClosed] are the sentinels of package
    [os].  [ErrNotFiler] is the sentinel of this package. *)
Inductive Err : Type :=
  | ErrNotFiler
  | ErrInvalid
  | ErrClosed
  | Errno (n : Z)
  | ErrorString (msg : string)
  | SyscallError (syscall : string) (e : Err)
  | PathError (op path : string) (e : Err).

(** An [error] interface value; [None] is [nil]. *)
Definition error := option Err.

(** [os.NewSyscallError]: nil stays nil, anything else is wrapped. *)
Definition os_NewSyscallError (syscall : string) (err : error) : error :=
  match err with
  | None => None
  | Some e => Some (SyscallError syscall e)
  end.

(** [fmt.Errorf] with a format that has no verbs. *)
Definition fmt_Errorf (format : string) : error := Some (ErrorString format).

Definition EBADF : Z := 9.

(** ** Event interest *)

(** [Event] is an unsigned bit mask; composition is bitwise or. *)
Definition Event := Z.

(** Modelled from the spec: the four named flags of the event-interest
    model, whose declarations are in a file of the package that is not part
    of the sources at hand.  The functions below take them as given. *)
Class EventFlags := {
  EventRead : Event;
  EventWrite : Event;
  EventOneShot : Event;
  EventEdgeTriggered : Event
}.

(** Modelled from the spec: "an integer bit-set over the flags Read, Write,
    EdgeTriggered, OneShot": four distinct single bits. *)
Definition bit_flags : EventFlags :=
  {| EventRead := 1; EventWrite := 2; EventOneShot := 4;
     EventEdgeTriggered := 8 |}.

(** ** The system: descriptor table and os.File objects *)

(** A [*os.File]; [None] is the nil pointer, [Some l] refers to the [l]-th
    file object ever created. *)
Definition FilePtr := option nat.

(** An [os.File] object: the descriptor it wraps ([-1] once closed), whether
    the runtime itself switched the descriptor to non-blocking mode, and its
    name. *)
Record osFile := {
  f_sysfd : Z;
  f_nonblock : bool;
  f_name : string
}.

(** [fdtab] maps every open descriptor to its O_NONBLOCK flag.  [files] are
    the [os.File] objects.  [nb_fault] and [close_fault] say with which
    errno, if any, fcntl(F_SETFL) and close fail on an open descriptor. *)
Record Sys := {
  fdtab : gmap Z bool;
  files : list osFile;
  nb_fault : Z -> option Z;
  close_fault : Z -> option Z
}.

Definition set_fdtab (t : gmap Z bool) (s : Sys) : Sys :=
  {| fdtab := t; files := files s;
     nb_fault := nb_fault s; close_fault := close_fault s |}.

Definition set_files (fs : list osFile) (s : Sys) : Sys :=
  {| fdtab := fdtab s; files := fs;
     nb_fault := nb_fault s; close_fault := close_fault s |}.

(** The object behind a file pointer; nil and references to nothing have
    none. *)
Definition file_obj (s : Sys) (f : FilePtr) : option osFile :=
  match f with
  | None => None
  | Some l => files s !! l
  end.

(** The descriptor number held by a file; [-1] for nil and for a closed
    file. *)
Definition file_sysfd (s : Sys) (f : FilePtr) : Z :=
  match file_obj s f with
  | Some o => f_sysfd o
  | None => -1
  end.

(** ** Desc *)

Record Desc := {
  file : FilePtr;
  event : Event;
  desc : Z
}.

(** A [*Desc]; [None] is nil. *)
Definition DescPtr := option nat.

(** ** Outcomes of a call *)

(** What a panic carries: the error given to [panic], or the runtime error
    of a nil dereference. *)
Inductive PanicValue : Type :=
  | PanicError (e : Err)
  | PanicNilDeref.

(** A call returns a value or panics. *)
Inductive Outcome (A : Type) : Type :=
  | Returned (a : A)
  | Panicked (v : PanicValue).
Arguments Returned {A} a.
Arguments Panicked {A} v.

(** ** Objects handed to the factory *)

(** The [File] method of an object that has one: it may do anything to the
    system, and either returns a file and an error or panics (as the [File]
    of a nil pointer in an interface may). *)
Definition FileMethod := Sys -> Outcome (FilePtr * error) * Sys.

(** A Go interface value ([interface{}], [net.Conn], [net.Listener]).  Only
    what [handle] looks at is kept: an identity for the trace and the [File]
    method when the dynamic type has one.  The nil interface has none. *)
Record Object := {
  obj_id : nat;
  obj_File : option FileMethod
}.

(** ** Trace of calls that leave the package *)

Inductive Call : Type :=
  | CallNewFile (fd : uintptr) (f : FilePtr)
  | CallFileFd (f : FilePtr) (r : uintptr)
  | CallSetNonblock (fd : Z) (nonblocking : bool) (r : error)
  | CallFileClose (f : FilePtr) (r : error)
  | CallFile (obj : nat) (f : FilePtr) (r : error).

(** ** World and the monad of Go computations *)

Record World := {
  sys : Sys;
  descs : list Desc;
  trace : list Call
}.

Definition M (A : Type) : Type := World -> Outcome A * World.

Definition ret {A} (a : A) : M A := fun w => (Returned a, w).

Definition bind {A B} (m : M A) (k : A -> M B) : M B :=
  fun w =>
    match m w with
    | (Returned a, w') => k a w'
    | (Panicked v, w') => (Panicked v, w')
    end.

Definition panic {A} (v : PanicValue) : M A := fun w => (Panicked v, w).

Notation "'let!' x ':=' m 'in' k" := (bind m (fun x => k))
  (at level 10, x pattern, m at level 100, k at level 200).

Definition log (c : Call) : M unit :=
  fun w => (Returned tt,
            {| sys := sys w; descs := descs w; trace := trace w ++ [c] |}).

Definition get_sys : M Sys := fun w => (Returned (sys w), w).

Definition put_sys (s : Sys) : M unit :=
  fun w => (Returned tt, {| sys := s; descs := descs w; trace := trace w |}).

(** ** The Go runtime and the kernel, as far as the package calls them *)

(** [os.NewFile(fd, name)]: nil when [int(fd)] is negative, otherwise a new
    file object around the descriptor.  The descriptor table is not
    consulted. *)
Definition os_NewFile (fd : uintptr) (name : string) : M FilePtr :=
  let! s := get_sys in
  let fdi := int_of_uintptr fd in
  if fdi <? 0 then
    let! _ := log (CallNewFile fd None) in
    ret None
  else
    let f := Some (length (files s)) in
    let o := {| f_sysfd := fdi; f_nonblock := false; f_name := name |} in
    let! _ := put_sys (set_files (files s ++ [o]) s) in
    let! _ := log (CallNewFile fd f) in
    ret f.

(** The effect of [File.Fd] of [os.File] on the system: a descriptor that the
    runtime had put in non-blocking mode is put back in blocking mode
    before it is handed out. *)
Definition fd_effect (s : Sys) (f : FilePtr) : Sys :=
  match file_obj s f with
  | Some o =>
      if f_nonblock o && negb (f_sysfd o =? -1)
      then set_fdtab (alter (fun _ => false) (f_sysfd o) (fdtab s)) s
      else s
  | None => s
  end.

(** [File.Fd] of [os.File]: all ones for nil, the descriptor otherwise.  A
    pointer that refers to no file object is answered like nil. *)
Definition File_Fd (f : FilePtr) : M uintptr :=
  let! s := get_sys in
  let r := uintptr_of_int (file_sysfd s f) in
  let! _ := put_sys (fd_effect s f) in
  let! _ := log (CallFileFd f r) in
  ret r.

(** What close(2) answers for a descriptor. *)
Definition close_errno (s : Sys) (fd : Z) : option Z :=
  match fdtab s !! fd with
  | None => Some EBADF
  | Some _ => close_fault s fd
  end.

(** [File.Close] of [os.File]: [ErrInvalid] for nil, a [PathError] around
    [ErrClosed] for a closed file; otherwise the descriptor is released,
    the file is marked closed, and the answer of close(2) is reported. *)
Definition File_Close (f : FilePtr) : M error :=
  let! s := get_sys in
  match f, file_obj s f with
  | Some l, Some o =>
      if f_sysfd o =? -1 then
        let r := Some (PathError "close" (f_name o) ErrClosed) in
        let! _ := log (CallFileClose f r) in
        ret r
      else
        let r := match close_errno s (f_sysfd o) with
                 | Some n => Some (PathError "close" (f_name o) (Errno n))
                 | None => None
                 end in
        let o' := {| f_sysfd := -1; f_nonblock := f_nonblock o;
                     f_name := f_name o |} in
        let! _ := put_sys (set_files (<[l := o']> (files s))
                             (set_fdtab (delete (f_sysfd o) (fdtab s)) s)) in
        let! _ := log (CallFileClose f r) in
        ret r
  | _, _ =>
      let! _ := log (CallFileClose f (Some ErrInvalid)) in
      ret (Some ErrInvalid)
  end.

(** What fcntl answers when asked to change O_NONBLOCK on a descriptor. *)
Definition setnonblock_errno (s : Sys) (fd : Z) : option Z :=
  match fdtab s !! fd with
  | None => Some EBADF
  | Some _ => nb_fault s fd
  end.

(** [syscall.SetNonblock(fd, nonblocking)]. *)
Definition syscall_SetNonblock (fd : Z) (nonblocking : bool) : M error :=
  let! s := get_sys in
  match setnonblock_errno s fd with
  | Some n =>
      let! _ := log (CallSetNonblock fd nonblocking (Some (Errno n))) in
      ret (Some (Errno n))
  | None =>
      let! _ := put_sys (set_fdtab (<[fd := nonblocking]> (fdtab s)) s) in
      let! _ := log (CallSetNonblock fd nonblocking None) in
      ret None
  end.

(** A call of the [File] method of object [x]; a panic inside it goes on
    to the caller. *)
Definition call_File (x : Object) (m : FileMethod) : M (FilePtr * error) :=
  let! s := get_sys in
  match m s with
  | (Returned (f, err), s') =>
      let! _ := put_sys s' in
      let! _ := log (CallFile (obj_id x) f err) in
      ret (f, err)
  | (Panicked v, s') =>
      let! _ := put_sys s' in
      panic v
  end.

(** ** Heap of Desc values *)

(** [&Desc{...}] *)
Definition new_Desc (d : Desc) : M nat :=
  fun w => (Returned (length (descs w)),
            {| sys := sys w; descs := descs w ++ [d]; trace := trace w |}).

(** [*h]; a nil pointer panics. *)
Definition load_Desc (h : DescPtr) : M Desc :=
  fun w =>
    match h with
    | Some l =>
        match descs w !! l with
        | Some d => (Returned d, w)
        | None => (Panicked PanicNilDeref, w)
        end
    | None => (Panicked PanicNilDeref, w)
    end.

(** [h.desc = v] *)
Definition store_desc (h : DescPtr) (v : Z) : M unit :=
  let! d := load_Desc h in
  fun w =>
    match h with
    | Some l =>
        (Returned tt,
         {| sys := sys w;
            descs := <[l := {| file := file d; event := event d; desc := v |}]>
                       (descs w);
            trace := trace w |})
    | None => (Panicked PanicNilDeref, w)
    end.

(** ** The package: Desc and its factory *)

(** [x.(filer)]: succeeds exactly when the dynamic type of [x] has the
    method [File], returning a file and an error. *)
Definition as_filer (x : Object) : option FileMethod := obj_File x.

(** [func (h *Desc) Close() error] *)
Definition Close (h : DescPtr) : M error :=
  let! d := load_Desc h in
  File_Close (file d).

(** [func (h *Desc) Fd() int] *)
Definition Fd (h : DescPtr) : M Z :=
  let! d := load_Desc h in
  if desc d =? -1 then
    let! fd := File_Fd (file d) in
    let! _ := store_desc h (int_of_uintptr fd) in
    let! d' := load_Desc h in
    ret (desc d')
  else
    ret (desc d).

(** [func newDesc(file *os.File, ev Event)] *)
Definition newDesc (file : FilePtr) (ev : Event) : M (DescPtr * error) :=
  let! fd := File_Fd file in
  let! l := new_Desc {| file := file; event := ev;
                        desc := int_of_uintptr fd |} in
  let desc := Some l in
  let! n := Fd desc in
  let! err := syscall_SetNonblock n true in
  match err with
  | Some _ => ret (None, os_NewSyscallError "setnonblock" err)
  | None => ret (desc, None)
  end.

(** [func NewDesc(fd uintptr, ev Event)] *)
Definition NewDesc (fd : uintptr) (ev : Event) : M (DescPtr * error) :=
  let! file := os_NewFile fd "" in
  let! (desc, err) := newDesc file ev in
  match err with
  | Some _ =>
      let! _ := File_Close file in
      ret (None, err)
  | None => ret (desc, None)
  end.

(** [func Must(desc *Desc, err error) *Desc] *)
Definition Must (desc : DescPtr) (err : error) : M DescPtr :=
  match err with
  | Some e => panic (PanicError e)
  | None => ret desc
  end.

(** [func handle(x interface{}, event Event)] *)
Definition handle (x : Object) (event : Event) : M (DescPtr * error) :=
  match as_filer x with
  | None => ret (None, Some ErrNotFiler)
  | Some f =>
      let! (file, err) := call_File x f in
      match err with
      | Some _ => ret (None, err)
      | None =>
          let! (desc, err) := newDesc file event in
          match err with
          | Some _ =>
              let! _ := File_Close file in
              ret (None, err)
          | None => ret (desc, None)
          end
      end
  end.

(** [func Handle(conn net.Conn, event Event)] *)
Definition Handle (conn : Object) (event : Event) : M (DescPtr * error) :=
  let! (desc, err) := handle conn event in
  match err with
  | Some _ => ret (None, err)
  | None => ret (desc, None)
  end.

(** [func HandleListener(ln net.Listener, event Event)] *)
Definition HandleListener (ln : Object) (event : Event) : M (DescPtr * error) :=
  handle ln event.

Section Shorthands.
Context `{EventFlags}.

(** [func HandleRead(conn net.Conn)] *)
Definition HandleRead (conn : Object) : M (DescPtr * error) :=
  Handle conn (Z.lor EventRead EventEdgeTriggered).

(** [func HandleReadOnce(conn net.Conn)] *)
Definition HandleReadOnce (conn : Object) : M (DescPtr * error) :=
  Handle conn (Z.lor EventRead EventOneShot).

(** [func HandleWrite(conn net.Conn)] *)
Definition HandleWrite (conn : Object) : M (DescPtr * error) :=
  Handle conn (Z.lor EventWrite EventEdgeTriggered).

(** [func HandleWriteOnce(conn net.Conn)] *)
Definition HandleWriteOnce (conn : Object) : M (DescPtr * error) :=
  Handle conn (Z.lor EventWrite EventOneShot).

(** [func HandleReadWrite(conn net.Conn)] *)
Definition HandleReadWrite (conn : Object) : M (DescPtr * error) :=
  Handle conn (Z.lor (Z.lor EventRead EventWrite) EventEdgeTriggered).

(** The shorthand family of the source file, in source order. *)
Definition shorthands : list (string * (Object -> M (DescPtr * error))) :=
  [ ("HandleRead", HandleRead);
    ("HandleReadOnce", HandleReadOnce);
    ("HandleWrite", HandleWrite);
    ("HandleWriteOnce", HandleWriteOnce);
    ("HandleReadWrite", HandleReadWrite) ].

(** Every way the package offers to construct a Desc. *)
Inductive Entry : Type :=
  | ViaNewDesc (fd : uintptr) (ev : Event)
  | ViaHandle (conn : Object) (ev : Event)
  | ViaHandleListener (ln : Object) (ev : Event)
  | ViaHandleRead (conn : Object)
  | ViaHandleReadOnce (conn : Object)
  | ViaHandleWrite (conn : Object)
  | ViaHandleWriteOnce (conn : Object)
  | ViaHandleReadWrite (conn : Object).

Definition construct (e : Entry) : M (DescPtr * error) :=
  match e with
  | ViaNewDesc fd ev => NewDesc fd ev
  | ViaHandle conn ev => Handle conn ev
  | ViaHandleListener ln ev => HandleListener ln ev
  | ViaHandleRead conn => HandleRead conn
  | ViaHandleReadOnce conn => HandleReadOnce conn
  | ViaHandleWrite conn => HandleWrite conn
  | ViaHandleWriteOnce conn => HandleWriteOnce conn
  | ViaHandleReadWrite conn => HandleReadWrite conn
  end.
End Shorthands.

(** ** The multiplexer constructor on an unsupported platform *)

Section Stub.
(** [Config] and [EventPoll] are declared elsewhere in the package; the
    stub does not look inside either. *)
Variables Config EventPoll : Type.

(** [func New(c *Config) (EventPoll, error)] *)
Definition New (_ : option Config) : M (option EventPoll * error) :=
  ret (None, fmt_Errorf "poller is not supported on this operating system").
End Stub.

(** ** A small concrete system to run the code on *)

(** A connection whose [File] method hands out a fresh file around a new
    descriptor [dup], opened in blocking mode. *)
Definition dup_File (dup : Z) : FileMethod :=
  fun s =>
    (Returned (Some (length (files s)), None),
     {| fdtab := <[dup := false]> (fdtab s);
        files := files s ++ [{| f_sysfd := dup; f_nonblock := false;
                                f_name := "tcp" |}];
        nb_fault := nb_fault s; close_fault := close_fault s |}).

(** A connection whose [File] method fails with EMFILE. *)
Definition failing_File : FileMethod :=
  fun s => (Returned (None, Some (Errno 24)), s).

Definition conn_ok : Object := {| obj_id := 1; obj_File := Some (dup_File 7) |}.
Definition conn_bad : Object := {| obj_id := 2; obj_File := Some failing_File |}.
Definition conn_pipe : Object := {| obj_id := 3; obj_File := None |}.

(** Descriptors 0..3 open and blocking; fcntl fails on any descriptor in
    [faulty]. *)
Definition sys0 (faulty : list Z) : Sys :=
  {| fdtab := list_to_map [(0, false); (1, false); (2, false); (3, false)];
     files := [];
     nb_fault := fun fd => if bool_decide (fd ∈ faulty) then Some 22 else None;
     close_fault := fun _ => None |}.

Definition world0 (faulty : list Z) : World :=
  {| sys := sys0 faulty; descs := []; trace := [] |}.

(** ** Notions used in the statements *)

Arguments int_of_uintptr : simpl never.

Arguments uintptr_of_int : simpl never.

(** A world from its three parts. *)
Definition mkWorld (s : Sys) (d : list Desc) (t : list Call) : World :=
  {| sys := s; descs := d; trace := t |}.

(** [int(file.Fd())] as a function of the system state. *)
Definition file_fd_int (s : Sys) (f : FilePtr) : Z :=
  int_of_uintptr (uintptr_of_int (file_sysfd s f)).

Ltac run := unfold bind, ret, log, get_sys, put_sys, panic, mkWorld; simpl.

(** What [file.Close()] returns, and the system after it. *)
Definition close_result (s : Sys) (f : FilePtr) : error :=
  match f, file_obj s f with
  | Some _, Some o =>
      if f_sysfd o =? -1 then Some (PathError "close" (f_name o) ErrClosed)
      else match close_errno s (f_sysfd o) with
           | Some n => Some (PathError "close" (f_name o) (Errno n))
           | None => None
           end
  | _, _ => Some ErrInvalid
  end.

Definition close_effect (s : Sys) (f : FilePtr) : Sys :=
  match f, file_obj s f with
  | Some l, Some o =>
      if f_sysfd o =? -1 then s
      else set_files
             (<[l := {| f_sysfd := -1; f_nonblock := f_nonblock o;
                        f_name := f_name o |}]> (files s))
             (set_fdtab (delete (f_sysfd o) (fdtab s)) s)
  | _, _ => s
  end.

(** The calls of [file.Fd()] made by [newDesc]: one for the composite
    literal, and one more from [desc.Fd()] when the first one gave [-1]. *)
Definition newDesc_calls (s : Sys) (f : FilePtr) : list Call :=
  let c := CallFileFd f (uintptr_of_int (file_sysfd s f)) in
  if file_fd_int s f =? -1 then [c; c] else [c].

(** Once a file is at hand, [NewDesc] and [handle] run the same code: build
    the Desc with [newDesc], and close the file if that failed. *)
Definition attach (file : FilePtr) (ev : Event) : M (DescPtr * error) :=
  let! (desc, err) := newDesc file ev in
  match err with
  | Some _ =>
      let! _ := File_Close file in
      ret (None, err)
  | None => ret (desc, None)
  end.

(** The outcome of [attach], by whether fcntl fails. *)
Definition attach_failed (f : FilePtr) (ev : Event) (w : World) (e : Z)
  : Outcome (DescPtr * error) * World :=
  let n := file_fd_int (sys w) f in
  let s1 := fd_effect (sys w) f in
  (Returned (None, Some (SyscallError "setnonblock" (Errno e))),
   mkWorld (close_effect s1 f)
     (descs w ++ [{| file := f; event := ev; desc := n |}])
     (trace w ++ newDesc_calls (sys w) f ++
        [CallSetNonblock n true (Some (Errno e));
         CallFileClose f (close_result s1 f)])).

Definition attach_succeeded (f : FilePtr) (ev : Event) (w : World)
  : Outcome (DescPtr * error) * World :=
  let n := file_fd_int (sys w) f in
  let s1 := fd_effect (sys w) f in
  (Returned (Some (length (descs w)), None),
   mkWorld (set_fdtab (<[n := true]> (fdtab s1)) s1)
     (descs w ++ [{| file := f; event := ev; desc := n |}])
     (trace w ++ newDesc_calls (sys w) f ++ [CallSetNonblock n true None])).

(** The file made by [os.NewFile] and the system after the call. *)
Definition NewFile_ptr (s : Sys) (fd : uintptr) : FilePtr :=
  if int_of_uintptr fd <? 0 then None else Some (length (files s)).

Definition NewFile_sys (s : Sys) (fd : uintptr) (name : string) : Sys :=
  if int_of_uintptr fd <? 0 then s
  else set_files (files s ++ [{| f_sysfd := int_of_uintptr fd;
                                f_nonblock := false; f_name := name |}]) s.

(** The calls made since [w], as seen in [w']. *)
Definition calls_since (w w' : World) : list Call :=
  drop (length (trace w)) (trace w').

(** The calls made by [attach]. *)
Definition attach_calls (f : FilePtr) (w : World) : list Call :=
  let n := file_fd_int (sys w) f in
  let s1 := fd_effect (sys w) f in
  newDesc_calls (sys w) f ++
  match setnonblock_errno s1 n with
  | Some e => [CallSetNonblock n true (Some (Errno e));
               CallFileClose f (close_result s1 f)]
  | None => [CallSetNonblock n true None]
  end.

(** A construction that started in [w], ended in [w'] and returned [dp]
    has returned a Desc whose descriptor was set non-blocking last. *)
Definition nonblocking_on_return (w w' : World) (dp : DescPtr) : Prop :=
  exists l d,
    dp = Some l /\ descs w' !! l = Some d /\
    (exists pre,
       calls_since w w' = pre ++ [CallSetNonblock (desc d) true None]) /\
    fdtab (sys w') !! desc d = Some true /\
    desc d = file_fd_int (sys w') (file d).

(** The world after [n] further calls of [h.Fd()]. *)
Fixpoint after_Fd_calls (n : nat) (h : DescPtr) (w : World) : World :=
  match n with
  | O => w
  | S n' => after_Fd_calls n' h (snd (Fd h w))
  end.

(** The cache unset at first: the Desc of a successful [NewDesc 3], put back
    to [-1], resolves to 3 again and keeps it. *)
Definition world_unset : World :=
  mkWorld (sys (snd (NewDesc 3 9 (world0 []))))
    [{| file := Some 0%nat; event := 9; desc := -1 |}] [].

(** The interests that the shorthands stand for, as the documentation of
    each of them words it. *)
Definition shorthand_interest `{EventFlags} : list (string * Event) :=
  [ ("HandleRead", Z.lor EventRead EventEdgeTriggered);
    ("HandleReadOnce", Z.lor EventRead EventOneShot);
    ("HandleWrite", Z.lor EventWrite EventEdgeTriggered);
    ("HandleWriteOnce", Z.lor EventWrite EventOneShot);
    ("HandleReadWrite", Z.lor (Z.lor EventRead EventWrite) EventEdgeTriggered) ].

(** A constructor [h] behaves as [Handle] with interest [ev]: same result
    and same world from every connection and world, and the Desc it
    returns carries [ev]. *)
Definition behaves_as_Handle (h : Object -> M (DescPtr * error)) (ev : Event)
  : Prop :=
  forall conn w,
    h conn w = Handle conn ev w /\
    forall l w', h conn w = (Returned (Some l, None), w') ->
      exists d, descs w' !! l = Some d /\ event d = ev.

(** [Must(c(...))] for a constructor call [c(...)]: the two results of the
    call are handed to [Must]. *)
Definition Must_construct `{EventFlags} (en : Entry) : M DescPtr :=
  let! (desc, err) := construct en in
  Must desc err.

(** A pair of results is well formed when exactly one of the two is nil,
    and a Desc that is returned is allocated. *)
Definition Desc_xor_error (dp : DescPtr) (err : error) (w' : World) : Prop :=
  (exists l d, dp = Some l /\ err = None /\ descs w' !! l = Some d) \/
  (dp = None /\ exists e, err = Some e).

(** Two runs agree up to the interest: same results, same system, same
    calls, and the Descs they allocated differ in the [event] field only,
    which holds [ev1] in the first run and [ev2] in the second. *)
Definition agree_up_to_interest (ev1 ev2 : Event) (w : World)
    (r1 r2 : Outcome (DescPtr * error) * World) : Prop :=
  fst r1 = fst r2 /\
  sys (snd r1) = sys (snd r2) /\
  trace (snd r1) = trace (snd r2) /\
  exists tl1 tl2,
    descs (snd r1) = descs w ++ tl1 /\
    descs (snd r2) = descs w ++ tl2 /\
    Forall2 (fun d1 d2 =>
               file d1 = file d2 /\ desc d1 = desc d2 /\
               event d1 = ev1 /\ event d2 = ev2) tl1 tl2.

(** A file pointer is usable when it is nil or refers to a file object:
    the methods of [os.File] accept both. *)
Definition usable_file (s : Sys) (f : FilePtr) : Prop :=
  f = None \/ is_Some (file_obj s f).

(** The [File] method of [x], if it has one, returns when called in [w],
    and the file it gives without error is usable. *)
Definition File_returns (x : Object) (w : World) : Prop :=
  match as_filer x with
  | None => True
  | Some m =>
      exists f err s1,
        m (sys w) = (Returned (f, err), s1) /\
        (err = None -> usable_file s1 f)
  end.

(** The object that a constructor is given, if it is given one. *)
Definition Entry_object (en : Entry) : option Object :=
  match en with
  | ViaNewDesc _ _ => None
  | ViaHandle x _ | ViaHandleListener x _ | ViaHandleRead x
  | ViaHandleReadOnce x | ViaHandleWrite x | ViaHandleWriteOnce x
  | ViaHandleReadWrite x => Some x
  end.

(** * Properties *)

(** ** The system primitives, step by step *)

Lemma File_Fd_run f w :
  File_Fd f w =
    (Returned (uintptr_of_int (file_sysfd (sys w) f)),
     mkWorld (fd_effect (sys w) f) (descs w)
       (trace w ++ [CallFileFd f (uintptr_of_int (file_sysfd (sys w) f))])).
Proof. reflexivity. Qed.

Lemma fd_effect_files s f : files (fd_effect s f) = files s.
Proof.
  unfold fd_effect. destruct (file_obj s f) as [o|]; [|done].
  by destruct (f_nonblock o && negb (f_sysfd o =? -1)).
Qed.

Lemma file_obj_fd_effect s f g : file_obj (fd_effect s f) g = file_obj s g.
Proof. destruct g as [l|]; [|done]. simpl. by rewrite fd_effect_files. Qed.

Lemma file_sysfd_fd_effect s f g :
  file_sysfd (fd_effect s f) g = file_sysfd s g.
Proof. unfold file_sysfd. by rewrite file_obj_fd_effect. Qed.

Lemma fd_effect_idem s f : fd_effect (fd_effect s f) f = fd_effect s f.
Proof.
  unfold fd_effect at 1. rewrite file_obj_fd_effect.
  unfold fd_effect. destruct (file_obj s f) as [o|]; [|done].
  destruct (f_nonblock o && negb (f_sysfd o =? -1)); [|done].
  unfold set_fdtab; simpl. f_equal.
  apply map_eq; intros k. rewrite !lookup_alter.
  repeat case_decide; try done. by destruct (fdtab s !! f_sysfd o).
Qed.

(** A nil or closed file is left alone by [Fd]. *)
Lemma fd_effect_closed s f : file_sysfd s f = -1 -> fd_effect s f = s.
Proof.
  unfold file_sysfd, fd_effect. destruct (file_obj s f) as [o|]; [|done].
  intros ->. by rewrite andb_false_r.
Qed.

Lemma syscall_SetNonblock_run fd b w :
  syscall_SetNonblock fd b w =
    match setnonblock_errno (sys w) fd with
    | Some n =>
        (Returned (Some (Errno n)),
         mkWorld (sys w) (descs w)
           (trace w ++ [CallSetNonblock fd b (Some (Errno n))]))
    | None =>
        (Returned None,
         mkWorld (set_fdtab (<[fd := b]> (fdtab (sys w))) (sys w)) (descs w)
           (trace w ++ [CallSetNonblock fd b None]))
    end.
Proof.
  unfold syscall_SetNonblock. run.
  by destruct (setnonblock_errno (sys w) fd).
Qed.

Lemma File_Close_run f w :
  File_Close f w =
    (Returned (close_result (sys w) f),
     mkWorld (close_effect (sys w) f) (descs w)
       (trace w ++ [CallFileClose f (close_result (sys w) f)])).
Proof.
  unfold File_Close, close_result, close_effect. run.
  destruct f as [l|]; [|done]. simpl.
  destruct (files (sys w) !! l) as [o|]; [|done].
  by destruct (f_sysfd o =? -1).
Qed.

(** After [Close] the file holds no descriptor, and the descriptor it held
    is no longer open. *)
Lemma close_effect_sysfd s f : file_sysfd (close_effect s f) f = -1.
Proof.
  unfold close_effect, file_sysfd.
  destruct f as [l|]; [|done]. simpl.
  destruct (files s !! l) as [o|] eqn:E; simpl; [|by rewrite E].
  destruct (f_sysfd o =? -1) eqn:E1; simpl.
  - rewrite E. by apply Z.eqb_eq.
  - rewrite list_lookup_insert_eq; [done|]. by eapply lookup_lt_Some.
Qed.

Lemma close_effect_fdtab s f :
  0 <= file_sysfd s f -> fdtab (close_effect s f) !! file_sysfd s f = None.
Proof.
  unfold close_effect, file_sysfd.
  destruct f as [l|]; simpl; [|lia].
  destruct (files s !! l) as [o|] eqn:E; simpl; [|lia].
  intros Hge. destruct (f_sysfd o =? -1) eqn:E1; simpl.
  - apply Z.eqb_eq in E1. lia.
  - apply lookup_delete_eq.
Qed.

(** ** Desc.Fd and newDesc, step by step *)

Lemma bind_returned {A B} (m : M A) (k : A -> M B) w a w' :
  m w = (Returned a, w') -> bind m k w = k a w'.
Proof. unfold bind. by intros ->. Qed.

Lemma new_Desc_run d w :
  new_Desc d w =
    (Returned (length (descs w)), mkWorld (sys w) (descs w ++ [d]) (trace w)).
Proof. reflexivity. Qed.

Lemma load_Desc_run l d w :
  descs w !! l = Some d -> load_Desc (Some l) w = (Returned d, w).
Proof. unfold load_Desc. by intros ->. Qed.

Lemma Fd_run l d w :
  descs w !! l = Some d ->
  Fd (Some l) w =
    if desc d =? -1 then
      (Returned (file_fd_int (sys w) (file d)),
       mkWorld (fd_effect (sys w) (file d))
         (<[l := {| file := file d; event := event d;
                    desc := file_fd_int (sys w) (file d) |}]> (descs w))
         (trace w ++
            [CallFileFd (file d) (uintptr_of_int (file_sysfd (sys w) (file d)))]))
    else (Returned (desc d), w).
Proof.
  intros Hd. unfold Fd.
  rewrite (bind_returned _ _ _ _ _ (load_Desc_run _ _ _ Hd)).
  destruct (desc d =? -1); [|done].
  rewrite (bind_returned _ _ _ _ _ (File_Fd_run _ _)).
  unfold store_desc, bind, load_Desc, ret, mkWorld. simpl. rewrite Hd. simpl.
  rewrite list_lookup_insert_eq; [done|]. by eapply lookup_lt_Some.
Qed.

Lemma newDesc_run f ev w :
  newDesc f ev w =
    let n := file_fd_int (sys w) f in
    let s1 := fd_effect (sys w) f in
    let ds := descs w ++ [{| file := f; event := ev; desc := n |}] in
    match setnonblock_errno s1 n with
    | Some e =>
        (Returned (None, Some (SyscallError "setnonblock" (Errno e))),
         mkWorld s1 ds
           (trace w ++ newDesc_calls (sys w) f ++
              [CallSetNonblock n true (Some (Errno e))]))
    | None =>
        (Returned (Some (length (descs w)), None),
         mkWorld (set_fdtab (<[n := true]> (fdtab s1)) s1) ds
           (trace w ++ newDesc_calls (sys w) f ++ [CallSetNonblock n true None]))
    end.
Proof.
  unfold newDesc.
  rewrite (bind_returned _ _ _ _ _ (File_Fd_run _ _)).
  rewrite (bind_returned _ _ _ _ _ (new_Desc_run _ _)).
  cbn [sys descs trace mkWorld].
  fold (file_fd_int (sys w) f).
  set (n := file_fd_int (sys w) f).
  set (D := {| file := f; event := ev; desc := n |}).
  set (s1 := fd_effect (sys w) f).
  set (c := CallFileFd f _).
  set (w1 := {| sys := s1; descs := descs w ++ [D]; trace := trace w ++ [c] |}).
  assert (HD : descs w1 !! length (descs w) = Some D)
    by (by apply list_lookup_middle).
  pose proof (Fd_run _ _ _ HD) as HFd. cbn [desc D file event] in HFd.
  unfold newDesc_calls. fold n c.
  assert (Hn : file_fd_int (sys w1) f = n).
  { unfold file_fd_int. simpl. unfold s1. by rewrite file_sysfd_fd_effect. }
  assert (Hc : CallFileFd f (uintptr_of_int (file_sysfd (sys w1) f)) = c).
  { unfold c. simpl. unfold s1. by rewrite file_sysfd_fd_effect. }
  rewrite Hn, Hc in HFd. fold D in HFd.
  rewrite (list_insert_id _ _ _ HD) in HFd.
  assert (Hs : fd_effect (sys w1) f = s1) by apply fd_effect_idem.
  rewrite Hs in HFd.
  destruct (n =? -1) eqn:En;
    rewrite (bind_returned _ _ _ _ _ HFd);
    unfold bind; rewrite syscall_SetNonblock_run; cbn [sys descs trace mkWorld w1];
    destruct (setnonblock_errno s1 n);
      unfold ret, mkWorld; simpl; by rewrite <- !app_assoc.
Qed.

(** ** The common tail of NewDesc and handle *)

Lemma NewDesc_attach fd ev :
  NewDesc fd ev = (let! file := os_NewFile fd "" in attach file ev).
Proof. reflexivity. Qed.

Lemma handle_attach x ev m :
  as_filer x = Some m ->
  handle x ev =
    (let! (file, err) := call_File x m in
     match err with
     | Some _ => ret (None, err)
     | None => attach file ev
     end).
Proof. unfold handle. by intros ->. Qed.

Lemma attach_run f ev w :
  attach f ev w =
    match setnonblock_errno (fd_effect (sys w) f) (file_fd_int (sys w) f) with
    | Some e => attach_failed f ev w e
    | None => attach_succeeded f ev w
    end.
Proof.
  unfold attach, bind at 1. rewrite newDesc_run. cbv zeta.
  destruct (setnonblock_errno _ _) as [e|]; [|done].
  simpl. unfold bind. rewrite File_Close_run.
  unfold attach_failed, ret, mkWorld. simpl. by rewrite <- !app_assoc.
Qed.

Lemma os_NewFile_run fd name w :
  os_NewFile fd name w =
    (Returned (NewFile_ptr (sys w) fd),
     mkWorld (NewFile_sys (sys w) fd name) (descs w)
       (trace w ++ [CallNewFile fd (NewFile_ptr (sys w) fd)])).
Proof.
  unfold os_NewFile, NewFile_ptr, NewFile_sys. run.
  by destruct (int_of_uintptr fd <? 0).
Qed.

Lemma call_File_run x m w f err s1 :
  m (sys w) = (Returned (f, err), s1) ->
  call_File x m w =
    (Returned (f, err),
     mkWorld s1 (descs w) (trace w ++ [CallFile (obj_id x) f err])).
Proof. unfold call_File. run. by intros ->. Qed.

Lemma calls_since_app w w' cs :
  trace w' = trace w ++ cs -> calls_since w w' = cs.
Proof. unfold calls_since. intros ->. by rewrite drop_app_length. Qed.

Lemma newDesc_calls_no_SetNonblock s f n b r :
  ~ In (CallSetNonblock n b r) (newDesc_calls s f).
Proof.
  unfold newDesc_calls. destruct (file_fd_int s f =? -1); simpl; intuition discriminate.
Qed.

(** ** C1, C10: failure of the non-blocking coercion *)

Lemma attach_trace f ev w :
  trace (snd (attach f ev w)) = trace w ++ attach_calls f w.
Proof.
  rewrite attach_run. unfold attach_calls.
  by destruct (setnonblock_errno _ _).
Qed.

Lemma calls_since_cons w0 w1 w' c cs :
  trace w1 = trace w0 ++ [c] ->
  trace w' = trace w1 ++ cs ->
  calls_since w0 w' = c :: cs.
Proof.
  intros H1 H2. apply calls_since_app. rewrite H2, H1.
  by rewrite <- app_assoc.
Qed.

(** A failed [SetNonblock] among the calls of [attach] is the one on the
    descriptor of the file, and then [attach] takes its failure path. *)
Lemma attach_calls_failure f ev w n e :
  In (CallSetNonblock n true (Some e)) (attach_calls f w) ->
  exists k,
    e = Errno k /\ n = file_fd_int (sys w) f /\
    attach f ev w = attach_failed f ev w k.
Proof.
  unfold attach_calls. rewrite attach_run. intros Hin.
  apply in_app_or in Hin as [Hin|Hin];
    [by apply newDesc_calls_no_SetNonblock in Hin|].
  destruct (setnonblock_errno _ _) as [k|].
  - destruct Hin as [[= <- <-]|[[=]|[]]]. by exists k.
  - by destruct Hin as [[=]|[]].
Qed.

Lemma handle_run x ev w m f s1 :
  as_filer x = Some m ->
  m (sys w) = (Returned (f, None), s1) ->
  handle x ev w =
    attach f ev
      (mkWorld s1 (descs w) (trace w ++ [CallFile (obj_id x) f None])).
Proof.
  intros Hm Hf. rewrite (handle_attach _ _ _ Hm).
  by rewrite (bind_returned _ _ _ _ _ (call_File_run x _ _ _ _ _ Hf)).
Qed.

(** A panic inside [File] leaves [handle] as it is, after what [File] did
    to the system; nothing else is called. *)
Lemma handle_run_File_panicked x ev w m v s1 :
  as_filer x = Some m ->
  m (sys w) = (Panicked v, s1) ->
  handle x ev w = (Panicked v, mkWorld s1 (descs w) (trace w)).
Proof.
  intros Hm Hf. rewrite (handle_attach _ _ _ Hm).
  unfold bind at 1. unfold call_File. run. by rewrite Hf.
Qed.

Lemma NewDesc_run fd ev w :
  NewDesc fd ev w =
    attach (NewFile_ptr (sys w) fd) ev
      (mkWorld (NewFile_sys (sys w) fd "") (descs w)
         (trace w ++ [CallNewFile fd (NewFile_ptr (sys w) fd)])).
Proof.
  rewrite NewDesc_attach.
  by rewrite (bind_returned _ _ _ _ _ (os_NewFile_run _ _ _)).
Qed.

(** C1.  Whenever [handle] has extracted a file and the call
    [SetNonblock(n, true)] it makes fails with [e], the last call before
    [handle] returns is [Close] on that file (which then holds no descriptor,
    the one it held being released), the error returned is
    [SyscallError "setnonblock" e], and the Desc returned is nil.  Likewise
    for [NewDesc] and the file it wraps around the raw descriptor. *)
Theorem nonblock_failure_rolls_back :
  (forall x ev w m f s1 out w' n e,
     as_filer x = Some m ->
     m (sys w) = (Returned (f, None), s1) ->
     handle x ev w = (out, w') ->
     In (CallSetNonblock n true (Some e)) (calls_since w w') ->
     out = Returned (None, Some (SyscallError "setnonblock" e)) /\
     (exists pre r,
        calls_since w w' =
          CallFile (obj_id x) f None ::
            pre ++ [CallSetNonblock n true (Some e); CallFileClose f r]) /\
     file_sysfd (sys w') f = -1 /\
     (0 <= file_sysfd s1 f -> fdtab (sys w') !! file_sysfd s1 f = None))
  /\
  (forall fd ev w out w' n e,
     NewDesc fd ev w = (out, w') ->
     In (CallSetNonblock n true (Some e)) (calls_since w w') ->
     out = Returned (None, Some (SyscallError "setnonblock" e)) /\
     (exists f pre r,
        calls_since w w' =
          CallNewFile fd f ::
            pre ++ [CallSetNonblock n true (Some e); CallFileClose f r] /\
        file_sysfd (sys w') f = -1)).
Proof.
  split.
  - intros x ev w m f s1 out w' n e Hm Hf Hrun Hin.
    rewrite (handle_run _ _ _ _ _ _ Hm Hf) in Hrun.
    set (w1 := mkWorld _ _ _) in Hrun.
    pose proof (attach_trace f ev w1) as Htr. rewrite Hrun in Htr.
    rewrite (calls_since_cons w w1 w' _ _ eq_refl Htr) in Hin |- *.
    destruct Hin as [[=]|Hin].
    destruct (attach_calls_failure _ ev _ _ _ Hin) as (k & -> & -> & Hk).
    rewrite Hk in Hrun. unfold attach_failed in Hrun.
    injection Hrun as <- <-. split; [done|]. split; [|split].
    + unfold attach_calls in *. revert Hin. rewrite attach_run in Hk.
      destruct (setnonblock_errno _ _) as [k'|]; [|done].
      injection Hk as ->. by eexists _, _.
    + apply close_effect_sysfd.
    + simpl. intros Hge.
      rewrite <- (file_sysfd_fd_effect s1 f f). apply close_effect_fdtab.
      by rewrite file_sysfd_fd_effect.
  - intros fd ev w out w' n e Hrun Hin.
    rewrite NewDesc_run in Hrun.
    set (f := NewFile_ptr (sys w) fd) in *.
    set (w1 := mkWorld _ _ _) in Hrun.
    pose proof (attach_trace f ev w1) as Htr. rewrite Hrun in Htr.
    rewrite (calls_since_cons w w1 w' _ _ eq_refl Htr) in Hin |- *.
    destruct Hin as [[=]|Hin].
    destruct (attach_calls_failure _ ev _ _ _ Hin) as (k & -> & -> & Hk).
    rewrite Hk in Hrun. unfold attach_failed in Hrun.
    injection Hrun as <- <-. split; [done|]. exists f.
    unfold attach_calls in *. revert Hin. rewrite attach_run in Hk.
    destruct (setnonblock_errno _ _) as [k'|]; [|done].
    injection Hk as ->. intros _. eexists _, _. split; [done|].
    apply close_effect_sysfd.
Qed.

Lemma nonblock_failure_rolls_back_witness :
  fst (handle conn_ok 9 (world0 [7])) =
    Returned (None, Some (SyscallError "setnonblock" (Errno 22))) /\
  fst (NewDesc 3 9 (world0 [3])) =
    Returned (None, Some (SyscallError "setnonblock" (Errno 22))).
Proof.
  split.
  - refine (proj1 (proj1 nonblock_failure_rolls_back
                     conn_ok 9 (world0 [7]) (dup_File 7) (Some 0%nat)
                     (snd (dup_File 7 (sys (world0 [7]))))
                     (fst (handle conn_ok 9 (world0 [7])))
                     (snd (handle conn_ok 9 (world0 [7])))
                     7 (Errno 22) _ _ _ _)).
    + reflexivity.
    + reflexivity.
    + reflexivity.
    + vm_compute. tauto.
  - refine (proj1 (proj2 nonblock_failure_rolls_back
                     3 9 (world0 [3])
                     (fst (NewDesc 3 9 (world0 [3])))
                     (snd (NewDesc 3 9 (world0 [3])))
                     3 (Errno 22) _ _)).
    + reflexivity.
    + vm_compute. tauto.
Defined.

(** C10.  A [NewDesc] that returns an error has failed in the non-blocking
    coercion, and its last call is [Close] on the file that [os.NewFile]
    wrapped around the caller's descriptor: that file holds no descriptor
    any more and the caller's descriptor is not open afterwards. *)
Theorem NewDesc_failure_closes_fd fd ev w dp err w' :
  NewDesc fd ev w = (Returned (dp, Some err), w') ->
  dp = None /\
  (exists n e, err = SyscallError "setnonblock" e /\
     exists pre r,
       calls_since w w' =
         CallNewFile fd (NewFile_ptr (sys w) fd) ::
           pre ++ [CallSetNonblock n true (Some e);
                   CallFileClose (NewFile_ptr (sys w) fd) r]) /\
  file_sysfd (sys w') (NewFile_ptr (sys w) fd) = -1 /\
  (0 <= int_of_uintptr fd -> fdtab (sys w') !! int_of_uintptr fd = None).
Proof.
  rewrite NewDesc_run.
  set (f := NewFile_ptr (sys w) fd).
  set (w1 := mkWorld _ _ _). intros Hrun.
  pose proof (attach_trace f ev w1) as Htr. rewrite Hrun in Htr.
  rewrite (calls_since_cons w w1 w' _ _ eq_refl Htr).
  revert Hrun. rewrite attach_run. unfold attach_calls.
  destruct (setnonblock_errno _ _) as [k|];
    unfold attach_failed, attach_succeeded, mkWorld; [|done].
  intros [= <- <- <-]. simpl sys. split; [done|]. split; [|split].
  - eexists _, _. split; [done|]. by eexists _, _.
  - apply close_effect_sysfd.
  - intros Hge.
    assert (Hfd : file_sysfd (fd_effect (NewFile_sys (sys w) fd "") f) f
                  = int_of_uintptr fd).
    { rewrite file_sysfd_fd_effect. unfold f, file_sysfd, file_obj.
      unfold NewFile_ptr, NewFile_sys. simpl.
      destruct (int_of_uintptr fd <? 0) eqn:E; [apply Z.ltb_lt in E; lia|].
      simpl. by rewrite list_lookup_middle. }
    rewrite <- Hfd. apply close_effect_fdtab. by rewrite Hfd.
Qed.

Lemma NewDesc_failure_closes_fd_witness :
  fdtab (sys (snd (NewDesc 3 9 (world0 [3])))) !! 3 = None.
Proof.
  refine (proj2 (proj2 (proj2
            (NewDesc_failure_closes_fd 3 9 (world0 [3]) None
               (SyscallError "setnonblock" (Errno 22))
               (snd (NewDesc 3 9 (world0 [3]))) _))) _).
  - reflexivity.
  - vm_compute. discriminate.
Defined.

(** ** C3, C7: the two early failures of handle *)

(** C3.  For an object without the [File] method, [handle], [Handle] and
    [HandleListener] return a nil Desc and the sentinel [ErrNotFiler], and
    leave the world exactly as it was: nothing is called, no Desc is
    allocated, the system is untouched. *)
Theorem not_filer_is_rejected x ev w :
  as_filer x = None ->
  handle x ev w = (Returned (None, Some ErrNotFiler), w) /\
  Handle x ev w = (Returned (None, Some ErrNotFiler), w) /\
  HandleListener x ev w = (Returned (None, Some ErrNotFiler), w).
Proof.
  intros Hx. unfold HandleListener, Handle, bind, handle. by rewrite Hx.
Qed.

Lemma not_filer_is_rejected_witness :
  handle conn_pipe 9 (world0 []) =
    (Returned (None, Some ErrNotFiler), world0 []) /\
  Handle conn_pipe 9 (world0 []) =
    (Returned (None, Some ErrNotFiler), world0 []) /\
  HandleListener conn_pipe 9 (world0 []) =
    (Returned (None, Some ErrNotFiler), world0 []).
Proof. apply (not_filer_is_rejected conn_pipe 9 (world0 [])). reflexivity. Defined.

Lemma handle_run_extraction_failed x ev w m f e s1 :
  as_filer x = Some m ->
  m (sys w) = (Returned (f, Some e), s1) ->
  handle x ev w =
    (Returned (None, Some e),
     mkWorld s1 (descs w) (trace w ++ [CallFile (obj_id x) f (Some e)])).
Proof.
  intros Hm Hf. rewrite (handle_attach _ _ _ Hm).
  by rewrite (bind_returned _ _ _ _ _ (call_File_run x _ _ _ _ _ Hf)).
Qed.

(** C7.  When the [File] method of the object fails with [e], [handle]
    returns a nil Desc and [e] itself; the only call made is that one call
    of [File]: it is not repeated and no [Close] follows.  No Desc is
    allocated and the system is as [File] left it. *)
Theorem extraction_failure_is_propagated x ev w m f e s1 :
  as_filer x = Some m ->
  m (sys w) = (Returned (f, Some e), s1) ->
  exists w',
    handle x ev w = (Returned (None, Some e), w') /\
    calls_since w w' = [CallFile (obj_id x) f (Some e)] /\
    sys w' = s1 /\ descs w' = descs w.
Proof.
  intros Hm Hf. eexists.
  split; [exact (handle_run_extraction_failed _ ev _ _ _ _ _ Hm Hf)|].
  split; [|done]. by apply calls_since_app.
Qed.

Lemma extraction_failure_is_propagated_witness :
  exists w',
    handle conn_bad 9 (world0 []) = (Returned (None, Some (Errno 24)), w') /\
    calls_since (world0 []) w' = [CallFile 2 None (Some (Errno 24))] /\
    sys w' = sys0 [] /\ descs w' = [].
Proof.
  apply (extraction_failure_is_propagated conn_bad 9 (world0 [])
           failing_File None (Errno 24) (sys0 [])); reflexivity.
Defined.

(** ** C2: a constructed Desc is non-blocking *)

(** [Handle] only re-packs what [handle] returns, and [handle] never returns
    a Desc together with an error: the two agree everywhere. *)
Lemma attach_shape f ev w :
  exists dp err w',
    attach f ev w = (Returned (dp, err), w') /\
    (err = None \/ dp = None).
Proof.
  rewrite attach_run.
  destruct (setnonblock_errno _ _); eexists _, _, _; split; eauto.
Qed.

Lemma handle_shape x ev w :
  (exists dp err w',
     handle x ev w = (Returned (dp, err), w') /\
     (err = None \/ dp = None)) \/
  (exists v w', handle x ev w = (Panicked v, w')).
Proof.
  destruct (as_filer x) as [m|] eqn:Hm.
  - destruct (m (sys w)) as [[[f [e|]]|v] s1] eqn:Hf.
    + rewrite (handle_run_extraction_failed _ ev _ _ _ _ _ Hm Hf).
      left. eexists _, _, _; split; eauto.
    + rewrite (handle_run _ ev _ _ _ _ Hm Hf). left. apply attach_shape.
    + rewrite (handle_run_File_panicked _ ev _ _ _ _ Hm Hf).
      right. by eexists _, _.
  - unfold handle. rewrite Hm. left. eexists _, _, _; split; eauto.
Qed.

Lemma Handle_handle conn ev w : Handle conn ev w = handle conn ev w.
Proof.
  unfold Handle, bind.
  destruct (handle_shape conn ev w)
    as [(dp & err & w' & -> & Hs)|(v & w' & ->)]; [|done].
  by destruct err as [e|], Hs as [?|?]; simplify_eq.
Qed.

Lemma attach_success f ev w dp w' :
  attach f ev w = (Returned (dp, None), w') ->
  dp = Some (length (descs w)) /\
  descs w' !! length (descs w) =
    Some {| file := f; event := ev; desc := file_fd_int (sys w) f |} /\
  trace w' =
    trace w ++ newDesc_calls (sys w) f ++
      [CallSetNonblock (file_fd_int (sys w) f) true None] /\
  fdtab (sys w') !! file_fd_int (sys w) f = Some true /\
  file_fd_int (sys w') f = file_fd_int (sys w) f.
Proof.
  rewrite attach_run.
  destruct (setnonblock_errno _ _);
    unfold attach_failed, attach_succeeded, mkWorld; [done|].
  intros [= <- <-]. simpl. repeat split.
  - by apply list_lookup_middle.
  - apply lookup_insert_eq.
  - unfold file_fd_int, file_sysfd. destruct f as [l|]; [|done]. simpl.
    by rewrite fd_effect_files.
Qed.

Lemma handle_success x ev w dp w' :
  handle x ev w = (Returned (dp, None), w') ->
  exists m f s1,
    as_filer x = Some m /\ m (sys w) = (Returned (f, None), s1) /\
    attach f ev
      (mkWorld s1 (descs w) (trace w ++ [CallFile (obj_id x) f None]))
    = (Returned (dp, None), w').
Proof.
  destruct (as_filer x) as [m|] eqn:Hm.
  - destruct (m (sys w)) as [[[f [e|]]|v] s1] eqn:Hf.
    + by rewrite (handle_run_extraction_failed _ ev _ _ _ _ _ Hm Hf).
    + rewrite (handle_run _ ev _ _ _ _ Hm Hf). intros Hrun.
      by exists m, f, s1.
    + by rewrite (handle_run_File_panicked _ ev _ _ _ _ Hm Hf).
  - unfold handle. by rewrite Hm.
Qed.

Lemma attach_nonblocking w0 c f ev w1 dp w' :
  trace w1 = trace w0 ++ [c] ->
  attach f ev w1 = (Returned (dp, None), w') ->
  nonblocking_on_return w0 w' dp.
Proof.
  intros Htr Hrun.
  destruct (attach_success _ _ _ _ _ Hrun) as (-> & Hd & Ht & Hnb & Hfd).
  eexists _, _. split; [done|]. split; [exact Hd|]. simpl.
  split; [|by split].
  exists (c :: newDesc_calls (sys w1) f).
  by rewrite (calls_since_cons w0 w1 w' _ _ Htr Ht).
Qed.

Lemma handle_nonblocking x ev w dp w' :
  handle x ev w = (Returned (dp, None), w') ->
  nonblocking_on_return w w' dp.
Proof.
  intros Hrun.
  destruct (handle_success _ _ _ _ _ Hrun) as (m & f & s1 & _ & _ & Hat).
  eapply attach_nonblocking; [|exact Hat]. done.
Qed.

(** C2.  Whatever the entry point, when a construction returns without
    error it returns a Desc, the call made last was a successful
    [SetNonblock(d, true)] on the descriptor number [d] of that Desc, the
    descriptor [d] is open with O_NONBLOCK set, and [d] is the descriptor of
    the Desc's file. *)
Theorem constructed_Desc_is_nonblocking `{EventFlags} (en : Entry) w dp w' :
  construct en w = (Returned (dp, None), w') ->
  exists l d,
    dp = Some l /\ descs w' !! l = Some d /\
    (exists pre,
       calls_since w w' = pre ++ [CallSetNonblock (desc d) true None]) /\
    fdtab (sys w') !! desc d = Some true /\
    desc d = file_fd_int (sys w') (file d).
Proof.
  change (construct en w = (Returned (dp, None), w') ->
          nonblocking_on_return w w' dp).
  destruct en; simpl;
    unfold HandleListener, HandleRead, HandleReadOnce, HandleWrite,
      HandleWriteOnce, HandleReadWrite;
    rewrite ?Handle_handle; try apply handle_nonblocking.
  rewrite NewDesc_run. intros Hrun.
  eapply attach_nonblocking; [|exact Hrun]. done.
Qed.

Lemma constructed_Desc_is_nonblocking_witness :
  exists l d,
    fst (HandleRead (H := bit_flags) conn_ok (world0 [])) =
      Returned (Some l, None) /\
    descs (snd (HandleRead (H := bit_flags) conn_ok (world0 []))) !! l = Some d /\
    fdtab (sys (snd (HandleRead (H := bit_flags) conn_ok (world0 [])))) !! desc d
      = Some true.
Proof.
  assert (Hrun : construct (H := bit_flags) (ViaHandleRead conn_ok) (world0 [])
                 = (Returned (Some 0%nat, None),
                    snd (HandleRead (H := bit_flags) conn_ok (world0 []))))
    by (vm_compute; reflexivity).
  destruct (constructed_Desc_is_nonblocking (H := bit_flags) _ _ _ _ Hrun)
    as (l & d & Hl & Hd & _ & Hnb & _).
  exists l, d. injection Hl as <-. split; [|by split].
  vm_compute. reflexivity.
Defined.

(** ** C6: Desc.Fd is a stable, lazily filled cache *)

(** Once the Desc at [l] holds [v], and the file still yields the sentinel
    if [v] is the sentinel, a call of [Fd] returns [v] and all of this stays
    so. *)
Lemma Fd_keeps f ev v l w :
  descs w !! l = Some {| file := f; event := ev; desc := v |} ->
  (v = -1 -> file_fd_int (sys w) f = -1) ->
  fst (Fd (Some l) w) = Returned v /\
  descs (snd (Fd (Some l) w)) = descs w /\
  (v = -1 -> file_fd_int (sys (snd (Fd (Some l) w))) f = -1) /\
  (v = -1 -> sys (snd (Fd (Some l) w)) = fd_effect (sys w) f) /\
  (v <> -1 -> snd (Fd (Some l) w) = w).
Proof.
  intros Hd Hf. rewrite (Fd_run _ _ _ Hd). simpl desc. simpl file.
  destruct (v =? -1) eqn:E.
  - apply Z.eqb_eq in E. specialize (Hf E). rewrite Hf. simpl.
    split; [by rewrite E|]. split; [|split; [|done]].
    + apply list_insert_id. by rewrite Hd, E.
    + intros _. unfold file_fd_int in *. by rewrite file_sysfd_fd_effect.
  - apply Z.eqb_neq in E. simpl. by repeat split.
Qed.

Lemma Fd_keeps_forever f ev v l n : forall w,
  descs w !! l = Some {| file := f; event := ev; desc := v |} ->
  (v = -1 -> file_fd_int (sys w) f = -1) ->
  fst (Fd (Some l) (after_Fd_calls n (Some l) w)) = Returned v.
Proof.
  induction n as [|n IH]; intros w Hd Hf; simpl.
  - by apply (Fd_keeps f ev).
  - destruct (Fd_keeps f ev v l w Hd Hf) as (_ & Hds & Hf' & _).
    apply IH; [by rewrite Hds | done].
Qed.

(** C6.  Two calls of [Fd] in a row on a Desc return the same number [v],
    and so does every later call; after the first call [v] is what the Desc
    holds in its cache.  A Desc whose cache was filled returns it without
    touching anything; a Desc whose cache is unset ([-1]) gets [v] from its
    file.  Once the number held is not [-1], a further call changes nothing
    and calls nothing; in any case a further call changes neither the
    system nor any Desc. *)
Theorem Fd_is_stable l d w :
  descs w !! l = Some d ->
  let r1 := Fd (Some l) w in
  let r2 := Fd (Some l) (snd r1) in
  exists v,
    fst r1 = Returned v /\ fst r2 = Returned v /\
    (forall n,
       fst (Fd (Some l) (after_Fd_calls n (Some l) (snd r1))) = Returned v) /\
    descs (snd r1) !! l =
      Some {| file := file d; event := event d; desc := v |} /\
    (desc d <> -1 -> v = desc d /\ snd r1 = w) /\
    (desc d = -1 -> v = file_fd_int (sys w) (file d)) /\
    (v <> -1 -> snd r2 = snd r1) /\
    sys (snd r2) = sys (snd r1) /\ descs (snd r2) = descs (snd r1).
Proof.
  intros Hd. cbv zeta.
  set (v := if desc d =? -1 then file_fd_int (sys w) (file d) else desc d).
  set (w1 := snd (Fd (Some l) w)).
  assert (Hinv : fst (Fd (Some l) w) = Returned v /\
                 descs w1 !! l =
                   Some {| file := file d; event := event d; desc := v |} /\
                 (v = -1 -> file_fd_int (sys w1) (file d) = -1) /\
                 (desc d <> -1 -> snd (Fd (Some l) w) = w) /\
                 (v = -1 -> fd_effect (sys w1) (file d) = sys w1)).
  { unfold w1, v. rewrite (Fd_run _ _ _ Hd).
    destruct (desc d =? -1) eqn:E; simpl.
    - apply Z.eqb_eq in E. split; [done|]. split; [|split; [|split]].
      + apply list_lookup_insert_eq. by eapply lookup_lt_Some.
      + intros Hv. unfold file_fd_int in *. by rewrite file_sysfd_fd_effect.
      + done.
      + intros _. apply fd_effect_idem.
    - apply Z.eqb_neq in E. split; [done|]. split; [|done].
      rewrite Hd. by destruct d. }
  destruct Hinv as (Hr1 & Hd1 & Hf1 & Hw & Hs).
  destruct (Fd_keeps _ _ _ _ _ Hd1 Hf1) as (Hr2 & Hds & _ & Hs2 & Hw2).
  exists v. split; [done|]. split; [done|].
  split; [intros n; by apply (Fd_keeps_forever (file d) (event d))|].
  split; [done|]. split; [|split; [|split; [done|split; [|done]]]].
  - intros Hne. split; [|by apply Hw].
    unfold v. destruct (desc d =? -1) eqn:E; [apply Z.eqb_eq in E|]; done.
  - intros Hu. unfold v. by rewrite Hu.
  - destruct (decide (v = -1)) as [Hv|Hv].
    + by rewrite (Hs2 Hv), (Hs Hv).
    + by rewrite (Hw2 Hv).
Qed.

Lemma Fd_is_stable_witness :
  fst (Fd (Some 0%nat) world_unset) = Returned 3 /\
  fst (Fd (Some 0%nat) (snd (Fd (Some 0%nat) world_unset))) = Returned 3 /\
  snd (Fd (Some 0%nat) (snd (Fd (Some 0%nat) world_unset))) =
    snd (Fd (Some 0%nat) world_unset).
Proof.
  destruct (Fd_is_stable 0 {| file := Some 0%nat; event := 9; desc := -1 |}
              world_unset eq_refl)
    as (v & H1 & H2 & _ & _ & _ & Hv & Hsame & _).
  specialize (Hv eq_refl).
  assert (E : v = 3) by (rewrite Hv; vm_compute; reflexivity).
  rewrite E in *. split; [exact H1|]. split; [exact H2|].
  apply Hsame. discriminate.
Defined.

(** ** C8: what the methods of Desc may write *)

Lemma Close_run l d w :
  descs w !! l = Some d ->
  Close (Some l) w =
    (Returned (close_result (sys w) (file d)),
     mkWorld (close_effect (sys w) (file d)) (descs w)
       (trace w ++ [CallFileClose (file d) (close_result (sys w) (file d))])).
Proof.
  intros Hd. unfold Close.
  rewrite (bind_returned _ _ _ _ _ (load_Desc_run _ _ _ Hd)).
  apply File_Close_run.
Qed.

(** The factory allocates, and writes to no Desc that exists already. *)
Lemma attach_descs f ev w :
  exists tl, descs (snd (attach f ev w)) = descs w ++ tl.
Proof.
  rewrite attach_run. destruct (setnonblock_errno _ _); by eexists.
Qed.

Lemma handle_descs x ev w :
  exists tl, descs (snd (handle x ev w)) = descs w ++ tl.
Proof.
  destruct (as_filer x) as [m|] eqn:Hm.
  - destruct (m (sys w)) as [[[f [e|]]|v] s1] eqn:Hf.
    + rewrite (handle_run_extraction_failed _ ev _ _ _ _ _ Hm Hf).
      exists []. simpl. by rewrite app_nil_r.
    + rewrite (handle_run _ ev _ _ _ _ Hm Hf).
      apply (attach_descs f ev (mkWorld s1 (descs w) _)).
    + rewrite (handle_run_File_panicked _ ev _ _ _ _ Hm Hf).
      exists []. simpl. by rewrite app_nil_r.
  - unfold handle. rewrite Hm. exists []. simpl. by rewrite app_nil_r.
Qed.

Lemma construct_descs `{EventFlags} en w :
  exists tl, descs (snd (construct en w)) = descs w ++ tl.
Proof.
  destruct en; simpl;
    unfold HandleListener, HandleRead, HandleReadOnce, HandleWrite,
      HandleWriteOnce, HandleReadWrite;
    rewrite ?Handle_handle; try apply handle_descs.
  rewrite NewDesc_run.
  apply (attach_descs _ ev (mkWorld _ (descs w) _)).
Qed.

(** C8.  [Close] writes to no Desc at all.  [Fd] writes at most the [desc]
    field of its receiver: after it every Desc has the [file] and [event] it
    had before, and every Desc but the receiver is unchanged.  The
    constructors leave every Desc that exists already as it is. *)
Theorem file_and_event_are_immutable `{EventFlags} l d w :
  descs w !! l = Some d ->
  descs (snd (Close (Some l) w)) = descs w /\
  (exists v,
     descs (snd (Fd (Some l) w)) =
       <[l := {| file := file d; event := event d; desc := v |}]> (descs w)) /\
  (forall l' d', descs w !! l' = Some d' ->
     exists d'',
       descs (snd (Fd (Some l) w)) !! l' = Some d'' /\
       file d'' = file d' /\ event d'' = event d' /\
       (l' <> l -> d'' = d')) /\
  (forall en, descs (snd (construct en w)) !! l = Some d).
Proof.
  intros Hd. rewrite (Close_run _ _ _ Hd), (Fd_run _ _ _ Hd).
  split; [done|].
  assert (Hc : forall en, descs (snd (construct en w)) !! l = Some d).
  { intros en. destruct (construct_descs en w) as [tl ->].
    by apply lookup_app_l_Some. }
  destruct (desc d =? -1); simpl.
  - split; [by eexists|]. split; [|done]. intros l' d' Hd'.
    destruct (decide (l' = l)) as [->|Hne].
    + eexists. rewrite list_lookup_insert_eq by (by eapply lookup_lt_Some).
      split; [done|]. simpl. by simplify_eq.
    + exists d'. by rewrite list_lookup_insert_ne.
  - split; [|split; [|done]].
    + exists (desc d). rewrite list_insert_id; [done|]. rewrite Hd. by destruct d.
    + intros l' d' Hd'. by exists d'.
Qed.

Lemma file_and_event_are_immutable_witness :
  descs (snd (Close (Some 0%nat) world_unset)) = descs world_unset /\
  exists d'',
    descs (snd (Fd (Some 0%nat) world_unset)) !! 0%nat = Some d'' /\
    file d'' = Some 0%nat /\ event d'' = 9.
Proof.
  destruct (file_and_event_are_immutable (H := bit_flags) 0
              {| file := Some 0%nat; event := 9; desc := -1 |}
              world_unset eq_refl) as (HC & _ & HF & _).
  split; [exact HC|].
  destruct (HF 0%nat _ eq_refl) as (d'' & H1 & H2 & H3 & _).
  exists d''. by repeat split.
Defined.

(** ** C9: Must, and the absence of panics elsewhere *)

Lemma handle_returns x ev w :
  File_returns x w -> exists r, fst (handle x ev w) = Returned r.
Proof.
  unfold File_returns. intros HF.
  destruct (handle_shape x ev w)
    as [(dp & err & w' & -> & _)|(v & w' & Hp)]; [by eexists|].
  destruct (as_filer x) as [m|] eqn:Hm.
  - destruct HF as (f & err & s1 & Hf & _).
    destruct err as [e|].
    + rewrite (handle_run_extraction_failed _ ev _ _ _ _ _ Hm Hf) in Hp.
      discriminate Hp.
    + rewrite (handle_run _ ev _ _ _ _ Hm Hf) in Hp.
      destruct (attach_shape f ev
                  (mkWorld s1 (descs w)
                     (trace w ++ [CallFile (obj_id x) f None])))
        as (dp & err & w2 & Hat & _).
      rewrite Hat in Hp. discriminate Hp.
  - unfold handle in Hp. rewrite Hm in Hp. discriminate Hp.
Qed.

Lemma construct_of_object `{EventFlags} en x w :
  Entry_object en = Some x ->
  exists ev, construct en w = handle x ev w.
Proof.
  destruct en; simpl; intros [= <-];
    unfold HandleListener, HandleRead, HandleReadOnce, HandleWrite,
      HandleWriteOnce, HandleReadWrite;
    rewrite ?Handle_handle; by eexists.
Qed.

(** C9.  [Must] panics, with the error it was given, exactly when that error
    is not nil, and returns the Desc it was given otherwise, touching
    nothing.  Nothing else in the package panics on an error: [NewDesc] and
    [New] always return; every constructor given an object, and [handle],
    return whenever the [File] method of the object returns (giving a usable
    file if it gives no error), and a panic inside [File] goes through
    unchanged; [newDesc] returns on a usable file; [Close] returns on an
    allocated Desc, and so does [Fd] when the cache is filled or the file is
    usable. *)
Theorem Must_is_the_only_panic `{EventFlags} :
  (forall dp err w,
     (exists v, fst (Must dp err w) = Panicked v) <-> err <> None) /\
  (forall dp e w, Must dp (Some e) w = (Panicked (PanicError e), w)) /\
  (forall dp w, Must dp None w = (Returned dp, w)) /\
  (forall fd ev w, exists r, fst (NewDesc fd ev w) = Returned r) /\
  (forall en x w,
     Entry_object en = Some x -> File_returns x w ->
     exists r, fst (construct en w) = Returned r) /\
  (forall x ev w,
     File_returns x w -> exists r, fst (handle x ev w) = Returned r) /\
  (forall x ev w m v s1,
     as_filer x = Some m -> m (sys w) = (Panicked v, s1) ->
     fst (handle x ev w) = Panicked v) /\
  (forall f ev w,
     usable_file (sys w) f -> exists r, fst (newDesc f ev w) = Returned r) /\
  (forall (Config EventPoll : Type) c w,
     exists r, fst (New Config EventPoll c w) = Returned r) /\
  (forall l d w, descs w !! l = Some d ->
     (exists r, fst (Close (Some l) w) = Returned r) /\
     (desc d <> -1 \/ usable_file (sys w) (file d) ->
      exists r, fst (Fd (Some l) w) = Returned r)).
Proof.
  split; [|split; [done|split; [done|]]].
  { intros dp [e|] w; simpl; split.
    - done.
    - intros _. by eexists.
    - by intros [v [=]].
    - done. }
  split.
  { intros fd ev w. rewrite NewDesc_run.
    match goal with |- context [attach ?f ?e ?w1] =>
      destruct (attach_shape f e w1) as (dp & err & w' & -> & _) end.
    by eexists. }
  split.
  { intros en x w Hx HF.
    destruct (construct_of_object en x w Hx) as [ev ->].
    by apply handle_returns. }
  split; [intros x ev w; apply handle_returns|].
  split.
  { intros x ev w m v s1 Hm Hf.
    by rewrite (handle_run_File_panicked _ ev _ _ _ _ Hm Hf). }
  split.
  { intros f ev w _. rewrite newDesc_run. cbv zeta.
    destruct (setnonblock_errno _ _); by eexists. }
  split; [by eexists|].
  intros l d w Hd. rewrite (Close_run _ _ _ Hd), (Fd_run _ _ _ Hd).
  split; [by eexists|]. intros _. destruct (desc d =? -1); by eexists.
Qed.

Lemma Must_is_the_only_panic_witness :
  (exists v, fst (Must None (Some ErrNotFiler) (world0 [])) = Panicked v) /\
  (exists r, fst (HandleRead (H := bit_flags) conn_ok (world0 [])) = Returned r) /\
  (exists r, fst (newDesc None 9 (world0 [])) = Returned r) /\
  (exists r, fst (Close (Some 0%nat) world_unset) = Returned r) /\
  (exists r, fst (Fd (Some 0%nat) world_unset) = Returned r).
Proof.
  pose proof (Must_is_the_only_panic (H := bit_flags))
    as (HM & _ & _ & _ & HC & _ & _ & HN & _ & HD).
  split; [apply HM; discriminate|].
  split.
  { apply (HC (ViaHandleRead conn_ok) conn_ok (world0 []) eq_refl).
    eexists _, _, _. split; [reflexivity|]. intros _. right. by eexists. }
  split; [apply HN; by left|].
  destruct (HD 0%nat {| file := Some 0%nat; event := 9; desc := -1 |}
              world_unset eq_refl) as [HCl HFd].
  split; [exact HCl|]. apply HFd. right. right. by eexists.
Defined.

(** ** C4: the shorthand family *)

Lemma Handle_event conn ev w l w' :
  Handle conn ev w = (Returned (Some l, None), w') ->
  exists d, descs w' !! l = Some d /\ event d = ev.
Proof.
  rewrite Handle_handle. intros Hrun.
  destruct (handle_success _ _ _ _ _ Hrun) as (m & f & s1 & _ & _ & Hat).
  destruct (attach_success _ _ _ _ _ Hat) as ([= ->] & Hd & _).
  by eexists.
Qed.

(** C4, as amended.  The family has five members, [HandleRead],
    [HandleReadOnce], [HandleWrite], [HandleWriteOnce] and
    [HandleReadWrite]; each behaves as [Handle] on the same connection with
    the interest its name stands for. *)
Theorem shorthands_behave_as_Handle `{EventFlags} :
  length shorthands = 5%nat /\
  Forall2 (fun s i => fst s = fst i /\ behaves_as_Handle (snd s) (snd i))
    shorthands shorthand_interest.
Proof.
  split; [done|].
  unfold shorthands, shorthand_interest.
  repeat (apply Forall2_cons_2; [split; [done|]|]); try apply Forall2_nil_2;
    intros conn w; (split; [done|]); intros l w'; apply Handle_event.
Qed.

Lemma shorthands_behave_as_Handle_witness :
  exists d,
    descs (snd (HandleRead (H := bit_flags) conn_ok (world0 []))) !! 0%nat
      = Some d /\
    event d = 9.
Proof.
  pose proof (proj2 (shorthands_behave_as_Handle (H := bit_flags))) as HF.
  apply Forall2_cons_1 in HF as [[_ Hb] _].
  destruct (Hb conn_ok (world0 [])) as [_ Hev].
  apply (Hev 0%nat (snd (HandleRead (H := bit_flags) conn_ok (world0 [])))).
  vm_compute. reflexivity.
Defined.

(** C4 as worded fails.  With the family run on the connection [conn_ok]
    and the flags as four distinct bits: it has five members and not four,
    and none of them builds what [Handle] builds for read and write with
    one-shot delivery, so the family is not the product of {read, write,
    read and write} with the delivery modes. *)
Lemma shorthands_are_five_without_ReadWriteOnce :
  length (shorthands (H := bit_flags)) = 5%nat /\
  length (shorthands (H := bit_flags)) <> 4%nat /\
  Forall (fun s =>
            descs (snd (snd s conn_ok (world0 []))) <>
            descs (snd (Handle conn_ok
                          (Z.lor (Z.lor (EventRead (EventFlags := bit_flags))
                                    (EventWrite (EventFlags := bit_flags)))
                             (EventOneShot (EventFlags := bit_flags)))
                          (world0 []))))
    (shorthands (H := bit_flags)).
Proof.
  split; [done|]. split; [done|].
  unfold shorthands. repeat (apply Forall_cons; split); try apply Forall_nil_2;
    vm_compute; discriminate.
Qed.

(** ** C5: the stub of New *)

(** C5.  On a platform without multiplexer, [New] returns, for every
    configuration and in every world, no instance and the error whose
    message is "poller is not supported on this operating system"; that
    message contains "not supported on this operating system"; the world is
    left as it was. *)
Theorem New_is_not_supported (Config EventPoll : Type) (c : option Config) w :
  exists msg,
    New Config EventPoll c w = (Returned (None, Some (ErrorString msg)), w) /\
    msg = "poller is not supported on this operating system"%string /\
    exists pre post,
      msg = (pre ++ "not supported on this operating system" ++ post)%string.
Proof.
  exists "poller is not supported on this operating system"%string.
  split; [done|]. split; [done|].
  by exists "poller is "%string, ""%string.
Qed.

(** * Further properties of the factory and of Desc *)

(** ** Every constructor is NewDesc or handle *)

Lemma construct_cases `{EventFlags} en w :
  (exists fd ev, construct en w = NewDesc fd ev w) \/
  (exists x ev, construct en w = handle x ev w).
Proof.
  destruct en; simpl;
    unfold HandleListener, HandleRead, HandleReadOnce, HandleWrite,
      HandleWriteOnce, HandleReadWrite;
    rewrite ?Handle_handle; eauto.
Qed.

Lemma attach_xor f ev w :
  exists dp err w',
    attach f ev w = (Returned (dp, err), w') /\ Desc_xor_error dp err w'.
Proof.
  rewrite attach_run.
  destruct (setnonblock_errno _ _); eexists _, _, _; (split; [done|]).
  - right. eauto.
  - left. eexists _, _. split; [done|]. split; [done|].
    simpl. by apply list_lookup_middle.
Qed.

Lemma handle_xor x ev w dp err w' :
  handle x ev w = (Returned (dp, err), w') -> Desc_xor_error dp err w'.
Proof.
  destruct (as_filer x) as [m|] eqn:Hm.
  - destruct (m (sys w)) as [[[f [e|]]|v] s1] eqn:Hf.
    + rewrite (handle_run_extraction_failed _ ev _ _ _ _ _ Hm Hf).
      intros [= <- <- <-]. right. eauto.
    + rewrite (handle_run _ ev _ _ _ _ Hm Hf).
      match goal with |- context [attach ?f ?e ?w1] =>
        destruct (attach_xor f e w1) as (dp' & err' & w2 & -> & Hx) end.
      by intros [= <- <- <-].
    + by rewrite (handle_run_File_panicked _ ev _ _ _ _ Hm Hf).
  - unfold handle. rewrite Hm. intros [= <- <- <-]. right. eauto.
Qed.

Lemma construct_xor `{EventFlags} en w dp err w' :
  construct en w = (Returned (dp, err), w') -> Desc_xor_error dp err w'.
Proof.
  destruct (construct_cases en w) as [(fd & ev & ->)|(x & ev & ->)].
  - rewrite NewDesc_run.
    match goal with |- context [attach ?f ?e ?w1] =>
      destruct (attach_xor f e w1) as (dp' & err' & w2 & -> & Hx) end.
    by intros [= <- <- <-].
  - apply handle_xor.
Qed.

(** X1.  Whatever a constructor returns, and whatever [handle] returns, is
    either a Desc that is allocated together with a nil error, or a nil Desc
    together with an error: never both, never neither. *)
Theorem constructors_return_Desc_xor_error `{EventFlags} :
  (forall en w dp err w',
     construct en w = (Returned (dp, err), w') ->
     (exists l d, dp = Some l /\ err = None /\ descs w' !! l = Some d) \/
     (dp = None /\ exists e, err = Some e)) /\
  (forall x ev w dp err w',
     handle x ev w = (Returned (dp, err), w') ->
     (exists l d, dp = Some l /\ err = None /\ descs w' !! l = Some d) \/
     (dp = None /\ exists e, err = Some e)).
Proof. split; [apply @construct_xor|apply handle_xor]. Qed.

Lemma constructors_return_Desc_xor_error_witness :
  (exists l d,
     Some 0%nat = Some l /\ @None Err = None /\
     descs (snd (HandleRead (H := bit_flags) conn_ok (world0 []))) !! l
       = Some d) \/
  (Some 0%nat = @None nat /\ exists e, @None Err = Some e).
Proof.
  apply (proj1 (constructors_return_Desc_xor_error (H := bit_flags))
           (ViaHandleRead conn_ok) (world0 []) (Some 0%nat) None
           (snd (HandleRead (H := bit_flags) conn_ok (world0 [])))).
  vm_compute. reflexivity.
Defined.

(** ** The errors of handle *)

(** X2.  An error returned by [handle] is of one of three kinds, told apart
    by what happened: the object has no [File] method, the error is
    [ErrNotFiler] and the world is untouched; or [File] failed, the error is
    the one [File] gave and [File] was the only call; or [File] succeeded,
    the error is a [SyscallError] of "setnonblock" around an errno, and the
    call made last is [Close] on the file that [File] gave. *)
Theorem handle_error_is_one_of_three x ev w dp err w' :
  handle x ev w = (Returned (dp, Some err), w') ->
  (as_filer x = None /\ err = ErrNotFiler /\ w' = w) \/
  (exists m f s1,
     as_filer x = Some m /\ m (sys w) = (Returned (f, Some err), s1) /\
     calls_since w w' = [CallFile (obj_id x) f (Some err)]) \/
  (exists m f s1 k pre r,
     as_filer x = Some m /\ m (sys w) = (Returned (f, None), s1) /\
     err = SyscallError "setnonblock" (Errno k) /\
     calls_since w w' =
       CallFile (obj_id x) f None ::
         pre ++ [CallSetNonblock (file_fd_int s1 f) true (Some (Errno k));
                 CallFileClose f r]).
Proof.
  destruct (as_filer x) as [m|] eqn:Hm.
  - destruct (m (sys w)) as [[[f [e|]]|v] s1] eqn:Hf;
      [| |by rewrite (handle_run_File_panicked _ ev _ _ _ _ Hm Hf)].
    + rewrite (handle_run_extraction_failed _ ev _ _ _ _ _ Hm Hf).
      intros [= <- <- <-]. right. left. exists m, f, s1.
      split; [done|]. split; [done|]. by apply calls_since_app.
    + rewrite (handle_run _ ev _ _ _ _ Hm Hf).
      rewrite attach_run.
      destruct (setnonblock_errno _ _) as [k|] eqn:Ek;
        unfold attach_failed, attach_succeeded, mkWorld; [|done].
      intros [= <- <- <-]. right. right.
      exists m, f, s1, k, (newDesc_calls s1 f). eexists.
      split; [done|]. split; [done|]. split; [done|].
      apply calls_since_app. simpl. by rewrite <- app_assoc.
  - unfold handle. rewrite Hm. intros [= <- <- <-]. by left.
Qed.

Lemma handle_error_is_one_of_three_witness :
  exists m f s1,
    as_filer conn_bad = Some m /\
    m (sys (world0 [])) = (Returned (f, Some (Errno 24)), s1).
Proof.
  destruct (handle_error_is_one_of_three conn_bad 9 (world0 []) None
              (Errno 24) (snd (handle conn_bad 9 (world0 []))) eq_refl)
    as [(Hn & _)|[(m & f & s1 & Hm & Hf & _)|(m & f & s1 & k & pre & r & Hm & Hf & _)]].
  - discriminate Hn.
  - by exists m, f, s1.
  - injection Hm as <-. discriminate Hf.
Defined.

(** ** Handle and HandleListener *)

(** X3.  [Handle] and [HandleListener] do the same on every object, interest
    and world: the re-packing of the results in [Handle] changes nothing. *)
Theorem Handle_is_HandleListener x ev w :
  Handle x ev w = HandleListener x ev w.
Proof. unfold HandleListener. apply Handle_handle. Qed.

(** ** NewDesc on a raw descriptor *)

Lemma int_of_uintptr_range u :
  - 2 ^ 63 <= int_of_uintptr u < 2 ^ 63.
Proof.
  unfold int_of_uintptr. cbv zeta.
  pose proof (Z.mod_pos_bound u (2 ^ 64) ltac:(lia)) as Hb.
  destruct (u mod 2 ^ 64 <? 2 ^ 63) eqn:E;
    [apply Z.ltb_lt in E | apply Z.ltb_ge in E]; lia.
Qed.

Lemma int_of_uintptr_of_int i :
  - 2 ^ 63 <= i < 2 ^ 63 -> int_of_uintptr (uintptr_of_int i) = i.
Proof.
  intros Hi. unfold int_of_uintptr, uintptr_of_int. cbv zeta.
  rewrite Z.mod_mod by lia.
  destruct (Z.le_gt_cases 0 i) as [Hp|Hn].
  - rewrite (Z.mod_small i) by lia.
    destruct (i <? 2 ^ 63) eqn:E; [done|apply Z.ltb_ge in E; lia].
  - assert (Hm : i mod 2 ^ 64 = i + 2 ^ 64).
    { symmetry. apply (Z.mod_unique i (2 ^ 64) (-1)); lia. }
    rewrite Hm.
    destruct (i + 2 ^ 64 <? 2 ^ 63) eqn:E; [apply Z.ltb_lt in E; lia|lia].
Qed.

(** The file that [os.NewFile] makes of a descriptor that fits a
    non-negative [int]: it holds that descriptor, and [Fd] on it changes
    nothing. *)
Lemma NewFile_nonneg s fd name :
  0 <= int_of_uintptr fd ->
  let f := NewFile_ptr s fd in
  let s0 := NewFile_sys s fd name in
  f = Some (length (files s)) /\
  fdtab s0 = fdtab s /\ nb_fault s0 = nb_fault s /\
  close_fault s0 = close_fault s /\
  file_obj s0 f = Some {| f_sysfd := int_of_uintptr fd; f_nonblock := false;
                          f_name := name |} /\
  fd_effect s0 f = s0 /\
  file_fd_int s0 f = int_of_uintptr fd.
Proof.
  intros Hge. unfold NewFile_ptr, NewFile_sys. cbv zeta.
  destruct (int_of_uintptr fd <? 0) eqn:E; [apply Z.ltb_lt in E; lia|].
  assert (Ho : file_obj
                 (set_files (files s ++ [{| f_sysfd := int_of_uintptr fd;
                                           f_nonblock := false;
                                           f_name := name |}]) s)
                 (Some (length (files s)))
               = Some {| f_sysfd := int_of_uintptr fd; f_nonblock := false;
                         f_name := name |}).
  { simpl. by apply list_lookup_middle. }
  repeat split; try done.
  - unfold fd_effect. by rewrite Ho.
  - unfold file_fd_int, file_sysfd. rewrite Ho. simpl.
    apply int_of_uintptr_of_int, int_of_uintptr_range.
Qed.

Lemma newDesc_calls_nonneg s f :
  0 <= file_fd_int s f ->
  newDesc_calls s f = [CallFileFd f (uintptr_of_int (file_sysfd s f))].
Proof.
  intros Hge. unfold newDesc_calls.
  destruct (file_fd_int s f =? -1) eqn:E; [apply Z.eqb_eq in E; lia|done].
Qed.

(** X4.  For a descriptor number that the kernel takes as it is (from 0 to
    2^31 - 1), [NewDesc] succeeds exactly when the descriptor is open and
    fcntl does not fail on it.  The
    Desc it then returns holds a new file around that very descriptor, the
    interest given and the descriptor number [int(fd)]; three calls were
    made, [NewFile], [Fd] on the new file, and [SetNonblock]. *)
Theorem NewDesc_succeeds_iff_fcntl_does fd ev w :
  0 <= int_of_uintptr fd < 2 ^ 31 ->
  ((exists l w', NewDesc fd ev w = (Returned (Some l, None), w')) <->
   (is_Some (fdtab (sys w) !! int_of_uintptr fd) /\
    nb_fault (sys w) (int_of_uintptr fd) = None)) /\
  (forall l w', NewDesc fd ev w = (Returned (Some l, None), w') ->
     descs w' !! l =
       Some {| file := Some (length (files (sys w))); event := ev;
               desc := int_of_uintptr fd |} /\
     files (sys w') !! length (files (sys w)) =
       Some {| f_sysfd := int_of_uintptr fd; f_nonblock := false;
               f_name := "" |} /\
     calls_since w w' =
       [CallNewFile fd (Some (length (files (sys w))));
        CallFileFd (Some (length (files (sys w))))
          (uintptr_of_int (int_of_uintptr fd));
        CallSetNonblock (int_of_uintptr fd) true None]).
Proof.
  intros [Hge _].
  destruct (NewFile_nonneg (sys w) fd "" Hge)
    as (Hf & Htab & Hnb & _ & Ho & Heff & Hn).
  rewrite NewDesc_run, attach_run. simpl sys.
  rewrite Heff, Hn.
  assert (Herr : setnonblock_errno (NewFile_sys (sys w) fd "")
                   (int_of_uintptr fd)
                 = match fdtab (sys w) !! int_of_uintptr fd with
                   | None => Some EBADF
                   | Some _ => nb_fault (sys w) (int_of_uintptr fd)
                   end).
  { unfold setnonblock_errno. by rewrite Htab, Hnb. }
  rewrite Herr. split.
  - destruct (fdtab (sys w) !! int_of_uintptr fd) as [b|] eqn:Et.
    + destruct (nb_fault (sys w) (int_of_uintptr fd)) as [k|] eqn:Ek.
      * split; [by intros (l & w' & [=])|by intros [_ [=]]].
      * split; [done|]. intros _. by eexists _, _.
    + split; [by intros (l & w' & [=])|]. by intros [[? [=]] _].
  - intros l w'.
    destruct (match fdtab (sys w) !! int_of_uintptr fd with
              | None => Some EBADF
              | Some _ => nb_fault (sys w) (int_of_uintptr fd)
              end); [done|].
    unfold attach_succeeded, mkWorld. simpl sys. simpl descs. simpl trace.
    rewrite Heff, Hn. intros [= <- <-]. simpl.
    split; [rewrite Hf; by apply list_lookup_middle|]. split.
    + rewrite Hf in Ho. exact Ho.
    + apply calls_since_app. simpl. rewrite <- app_assoc. simpl.
      rewrite newDesc_calls_nonneg by (by rewrite Hn).
      rewrite Hf. unfold file_sysfd. rewrite <- Hf, Ho. done.
Qed.

Lemma NewDesc_succeeds_iff_fcntl_does_witness :
  exists l w', NewDesc 3 9 (world0 []) = (Returned (Some l, None), w').
Proof.
  apply (proj1 (NewDesc_succeeds_iff_fcntl_does 3 9 (world0 [])
                  ltac:(vm_compute; split; [discriminate|reflexivity]))).
  split; [by eexists|reflexivity].
Defined.

(** X10.  For a descriptor number that the kernel takes as it is (from 0 to
    2^31 - 1), [NewDesc], whether it succeeds or fails, opens no descriptor
    and closes none but its own: every other descriptor is open afterwards
    exactly if it was open before.  Every file object and every Desc that
    existed before is left as it was. *)
Theorem NewDesc_touches_only_its_descriptor fd ev w :
  0 <= int_of_uintptr fd < 2 ^ 31 ->
  (forall k, k <> int_of_uintptr fd ->
     is_Some (fdtab (sys (snd (NewDesc fd ev w))) !! k) <->
     is_Some (fdtab (sys w) !! k)) /\
  (forall i o, files (sys w) !! i = Some o ->
     files (sys (snd (NewDesc fd ev w))) !! i = Some o) /\
  (forall l d, descs w !! l = Some d ->
     descs (snd (NewDesc fd ev w)) !! l = Some d).
Proof.
  intros [Hge _].
  destruct (NewFile_nonneg (sys w) fd "" Hge)
    as (Hf & Htab & Hnb & _ & Ho & Heff & Hn).
  rewrite NewDesc_run, attach_run. simpl sys. rewrite Heff, Hn.
  assert (Hfiles : files (NewFile_sys (sys w) fd "") =
                   files (sys w) ++ [{| f_sysfd := int_of_uintptr fd;
                                        f_nonblock := false; f_name := "" |}]).
  { unfold NewFile_sys.
    destruct (int_of_uintptr fd <? 0) eqn:E; [apply Z.ltb_lt in E; lia|done]. }
  destruct (setnonblock_errno _ _);
    unfold attach_failed, attach_succeeded, mkWorld; simpl;
    rewrite ?Heff, ?Hn.
  - rewrite Hf in Ho |- *. unfold close_effect. rewrite Ho. simpl.
    destruct (int_of_uintptr fd =? -1) eqn:E; [apply Z.eqb_eq in E; lia|].
    simpl. split; [|split].
    + intros k Hk. rewrite lookup_delete_ne by done. by rewrite Htab.
    + intros i o Hi. rewrite Hfiles.
      rewrite list_lookup_insert_ne
        by (apply lookup_lt_Some in Hi; lia).
      by apply lookup_app_l_Some.
    + intros l d Hl. by apply lookup_app_l_Some.
  - split; [|split].
    + intros k Hk. rewrite lookup_insert_ne by done. by rewrite Htab.
    + intros i o Hi. rewrite Hfiles. by apply lookup_app_l_Some.
    + intros l d Hl. by apply lookup_app_l_Some.
Qed.

Lemma NewDesc_touches_only_its_descriptor_witness :
  is_Some (fdtab (sys (snd (NewDesc 3 9 (world0 [3])))) !! 2) <->
  is_Some (fdtab (sys (world0 [3])) !! 2).
Proof.
  apply (proj1 (NewDesc_touches_only_its_descriptor 3 9 (world0 [3])
                  ltac:(vm_compute; split; [discriminate|reflexivity]))).
  discriminate.
Defined.

(** X11.  A [uintptr] whose [int] is negative is no descriptor:
    [os.NewFile] gives nil for it, [newDesc] finds the sentinel [-1] twice
    (in the composite literal and again in [Fd]), and, [-1] not being an
    open descriptor, [SetNonblock(-1, true)] fails with EBADF.  [NewDesc]
    then calls [Close] on the nil file, which answers [ErrInvalid], and
    returns the wrapped EBADF; the system is left exactly as it was. *)
Theorem NewDesc_of_negative_fails fd ev w :
  int_of_uintptr fd < 0 ->
  fdtab (sys w) !! (-1) = None ->
  exists w',
    NewDesc fd ev w =
      (Returned (None, Some (SyscallError "setnonblock" (Errno EBADF))), w') /\
    sys w' = sys w /\
    calls_since w w' =
      [CallNewFile fd None;
       CallFileFd None (2 ^ 64 - 1); CallFileFd None (2 ^ 64 - 1);
       CallSetNonblock (-1) true (Some (Errno EBADF));
       CallFileClose None (Some ErrInvalid)].
Proof.
  intros Hneg Hm1. rewrite NewDesc_run, attach_run.
  assert (Hp : NewFile_ptr (sys w) fd = None).
  { unfold NewFile_ptr.
    destruct (int_of_uintptr fd <? 0) eqn:E; [done|apply Z.ltb_ge in E; lia]. }
  assert (Hs : NewFile_sys (sys w) fd "" = sys w).
  { unfold NewFile_sys.
    destruct (int_of_uintptr fd <? 0) eqn:E; [done|apply Z.ltb_ge in E; lia]. }
  rewrite Hp, Hs. simpl sys.
  change (fd_effect (sys w) None) with (sys w).
  change (file_fd_int (sys w) None) with (-1).
  unfold setnonblock_errno. rewrite Hm1.
  unfold attach_failed, mkWorld. simpl sys.
  change (fd_effect (sys w) None) with (sys w).
  change (file_fd_int (sys w) None) with (-1).
  eexists. split; [reflexivity|]. split; [done|].
  apply calls_since_app. simpl. by rewrite <- app_assoc.
Qed.

Lemma NewDesc_of_negative_fails_witness :
  fst (NewDesc (2 ^ 64 - 1) 9 (world0 [])) =
    Returned (None, Some (SyscallError "setnonblock" (Errno EBADF))).
Proof.
  destruct (NewDesc_of_negative_fails (2 ^ 64 - 1) 9 (world0 [])
              ltac:(vm_compute; reflexivity) ltac:(vm_compute; reflexivity))
    as (w' & -> & _).
  reflexivity.
Defined.

(** ** What a successful handle leaves behind *)

(** X12.  When [handle] succeeds, the object had a [File] method, which was
    called once and succeeded; the Desc returned holds the very file that
    [File] gave, the interest given, and the descriptor number of that file.
    The file objects are as [File] left them: [handle] neither closes the
    file nor makes another. *)
Theorem handle_success_wraps_the_extracted_file x ev w l w' :
  handle x ev w = (Returned (Some l, None), w') ->
  exists m f s1,
    as_filer x = Some m /\ m (sys w) = (Returned (f, None), s1) /\
    descs w' !! l =
      Some {| file := f; event := ev; desc := file_fd_int s1 f |} /\
    files (sys w') = files s1 /\
    calls_since w w' =
      CallFile (obj_id x) f None ::
        newDesc_calls s1 f ++
        [CallSetNonblock (file_fd_int s1 f) true None].
Proof.
  intros Hrun.
  destruct (handle_success _ _ _ _ _ Hrun) as (m & f & s1 & Hm & Hf & Hat).
  exists m, f, s1. split; [done|]. split; [done|].
  revert Hat. rewrite attach_run.
  destruct (setnonblock_errno _ _);
    unfold attach_failed, attach_succeeded, mkWorld; [done|].
  intros [= <- <-]. simpl. split; [by apply list_lookup_middle|].
  split; [apply fd_effect_files|].
  apply calls_since_app. simpl. by rewrite <- app_assoc.
Qed.

Lemma handle_success_wraps_the_extracted_file_witness :
  descs (snd (handle conn_ok 9 (world0 []))) !! 0%nat =
    Some {| file := Some 0%nat; event := 9; desc := 7 |}.
Proof.
  destruct (handle_success_wraps_the_extracted_file conn_ok 9 (world0 [])
              0%nat (snd (handle conn_ok 9 (world0 []))) eq_refl)
    as (m & f & s1 & Hm & Hf & Hd & _).
  injection Hm as <-. injection Hf as <- <-. exact Hd.
Defined.

(** ** Must applied to a constructor *)

Lemma construct_nonblocking `{EventFlags} en w dp w' :
  construct en w = (Returned (dp, None), w') ->
  nonblocking_on_return w w' dp.
Proof.
  destruct (construct_cases en w) as [(fd & ev & ->)|(x & ev & ->)].
  - rewrite NewDesc_run. intros Hrun.
    eapply attach_nonblocking; [|exact Hrun]. done.
  - apply handle_nonblocking.
Qed.

(** X6.  [Must] applied to what a constructor returned never returns nil:
    either the constructor returned the error [e] and the call panics with
    [e], or it returns the Desc of the constructor, which is allocated and
    whose descriptor is open and non-blocking.  In both cases the world is
    the one the constructor left. *)
Theorem Must_of_constructor_never_returns_nil `{EventFlags} en w dp err w1 :
  construct en w = (Returned (dp, err), w1) ->
  match Must_construct en w with
  | (Returned p, w') =>
      w' = w1 /\
      exists l d,
        p = Some l /\ dp = Some l /\ err = None /\
        descs w' !! l = Some d /\ fdtab (sys w') !! desc d = Some true
  | (Panicked v, w') =>
      w' = w1 /\ exists e, v = PanicError e /\ err = Some e /\ dp = None
  end.
Proof.
  intros Hrun. unfold Must_construct, bind. rewrite Hrun.
  destruct (construct_xor _ _ _ _ _ Hrun)
    as [(l & d & -> & -> & Hd)|(-> & e & ->)]; simpl.
  - split; [done|].
    destruct (construct_nonblocking _ _ _ _ Hrun)
      as (l' & d' & [= <-] & Hd' & _ & Hnb & _).
    by exists l, d'.
  - split; [done|]. by exists e.
Qed.

Lemma Must_of_constructor_never_returns_nil_witness :
  fst (Must_construct (H := bit_flags) (ViaHandle conn_bad 9) (world0 []))
    = Panicked (PanicError (Errno 24)).
Proof.
  pose proof (Must_of_constructor_never_returns_nil (H := bit_flags)
                (ViaHandle conn_bad 9) (world0 []) None (Some (Errno 24))
                (snd (Handle conn_bad 9 (world0 []))) eq_refl) as HM.
  destruct (Must_construct (H := bit_flags) (ViaHandle conn_bad 9) (world0 []))
    as [[p|v] w'].
  - destruct HM as (_ & l & d & _ & [=] & _).
  - destruct HM as (_ & e & -> & [= <-] & _). reflexivity.
Defined.

(** ** Fd and Close on the Desc of a successful construction *)

(** X7.  On the Desc of a successful construction, provided [-1] is not an
    open descriptor, [Fd] returns the cached number and changes nothing: it
    makes no call, so it never asks the file for its descriptor again, and
    any number of calls leaves the world as the constructor left it. *)
Theorem Fd_of_constructed_Desc_is_cached `{EventFlags} en w l w' :
  construct en w = (Returned (Some l, None), w') ->
  fdtab (sys w') !! (-1) = None ->
  exists d,
    descs w' !! l = Some d /\ desc d <> -1 /\
    Fd (Some l) w' = (Returned (desc d), w') /\
    forall n, after_Fd_calls n (Some l) w' = w'.
Proof.
  intros Hrun Hm1.
  destruct (construct_nonblocking _ _ _ _ Hrun)
    as (l' & d & [= <-] & Hd & _ & Hnb & _).
  assert (Hne : desc d <> -1) by (intros E; rewrite E in Hnb; congruence).
  assert (HFd : Fd (Some l) w' = (Returned (desc d), w')).
  { rewrite (Fd_run _ _ _ Hd).
    destruct (desc d =? -1) eqn:E; [apply Z.eqb_eq in E|]; done. }
  exists d. split; [done|]. split; [done|]. split; [done|].
  induction n as [|n IH]; simpl; [done|]. by rewrite HFd.
Qed.

Lemma Fd_of_constructed_Desc_is_cached_witness :
  exists d,
    Fd (Some 0%nat) (snd (NewDesc 3 9 (world0 []))) =
      (Returned (desc d), snd (NewDesc 3 9 (world0 []))).
Proof.
  destruct (Fd_of_constructed_Desc_is_cached (H := bit_flags)
              (ViaNewDesc 3 9) (world0 []) 0%nat
              (snd (NewDesc 3 9 (world0 []))) eq_refl
              ltac:(vm_compute; reflexivity))
    as (d & _ & _ & HFd & _).
  by exists d.
Defined.

(** X8.  [Close] does not touch the cache: [Fd] called after [Close]
    returns the number the Desc held before, although the descriptor of the
    file has been released.  In particular a Desc whose cache was unset
    yields [-1], the file being closed. *)
Theorem Fd_after_Close_is_stale l d w :
  descs w !! l = Some d ->
  fst (Fd (Some l) (snd (Close (Some l) w))) = Returned (desc d) /\
  file_sysfd (sys (snd (Close (Some l) w))) (file d) = -1 /\
  (0 <= file_sysfd (sys w) (file d) ->
   fdtab (sys (snd (Close (Some l) w))) !! file_sysfd (sys w) (file d) = None).
Proof.
  intros Hd. rewrite (Close_run _ _ _ Hd). simpl snd.
  set (w1 := mkWorld _ _ _).
  assert (Hd1 : descs w1 !! l = Some d) by done.
  rewrite (Fd_run _ _ _ Hd1). split; [|split].
  - destruct (desc d =? -1) eqn:E; [|done]. apply Z.eqb_eq in E.
    simpl. unfold file_fd_int. rewrite close_effect_sysfd. by rewrite E.
  - apply close_effect_sysfd.
  - apply close_effect_fdtab.
Qed.

Lemma Fd_after_Close_is_stale_witness :
  fst (Fd (Some 0%nat)
         (snd (Close (Some 0%nat) (snd (NewDesc 3 9 (world0 [])))))) =
    Returned 3 /\
  fdtab (sys (snd (Close (Some 0%nat) (snd (NewDesc 3 9 (world0 [])))))) !! 3
    = None.
Proof.
  destruct (Fd_after_Close_is_stale 0
              {| file := Some 0%nat; event := 9; desc := 3 |}
              (snd (NewDesc 3 9 (world0 []))) eq_refl) as (HF & _ & HT).
  split; [exact HF|]. apply HT. vm_compute. discriminate.
Defined.

(** ** Close called again *)

(** [Close] on a file that holds no descriptor changes nothing and reports
    an error. *)
Lemma close_of_closed s f :
  file_sysfd s f = -1 ->
  close_effect s f = s /\
  (close_result s f = Some ErrInvalid \/
   exists name, close_result s f = Some (PathError "close" name ErrClosed)).
Proof.
  unfold file_sysfd, close_effect, close_result.
  destruct f as [l|]; [|by split; [|left]].
  destruct (file_obj s (Some l)) as [o|]; [|by split; [|left]].
  intros ->. simpl. split; [done|]. right. by eexists.
Qed.

Lemma close_again s f :
  close_effect (close_effect s f) f = close_effect s f /\
  (close_result (close_effect s f) f = Some ErrInvalid \/
   exists name,
     close_result (close_effect s f) f =
       Some (PathError "close" name ErrClosed)).
Proof. apply close_of_closed, close_effect_sysfd. Qed.

(** X9.  [Close] has no guard of its own: called again on the same Desc it
    calls [Close] on the file again.  That second call does not panic and
    changes nothing in the system; it reports an error, [ErrInvalid] when
    the Desc holds no file and otherwise a [PathError] of "close" around
    [ErrClosed]. *)
Theorem second_Close_is_not_guarded l d w :
  descs w !! l = Some d ->
  let w1 := snd (Close (Some l) w) in
  exists e,
    Close (Some l) w1 =
      (Returned (Some e),
       mkWorld (sys w1) (descs w1)
         (trace w1 ++ [CallFileClose (file d) (Some e)])) /\
    (e = ErrInvalid \/ exists name, e = PathError "close" name ErrClosed).
Proof.
  intros Hd. cbv zeta. rewrite (Close_run _ _ _ Hd). simpl snd.
  set (w1 := mkWorld _ _ _).
  assert (Hd1 : descs w1 !! l = Some d) by done.
  rewrite (Close_run _ _ _ Hd1). simpl sys.
  destruct (close_again (sys w) (file d)) as [-> [Hr|[name Hr]]]; rewrite Hr.
  - exists ErrInvalid. split; [done|by left].
  - eexists. split; [done|]. right. by eexists.
Qed.

Lemma second_Close_is_not_guarded_witness :
  exists e,
    fst (Close (Some 0%nat)
           (snd (Close (Some 0%nat) (snd (NewDesc 3 9 (world0 [])))))) =
      Returned (Some e) /\
    (e = ErrInvalid \/ exists name, e = PathError "close" name ErrClosed).
Proof.
  destruct (second_Close_is_not_guarded 0
              {| file := Some 0%nat; event := 9; desc := 3 |}
              (snd (NewDesc 3 9 (world0 []))) eq_refl) as (e & He & Hk).
  exists e. split; [by rewrite He|exact Hk].
Defined.

(** ** NewDesc does not duplicate the descriptor *)

Lemma NewDesc_success_nonneg fd ev w l w' :
  0 <= int_of_uintptr fd ->
  NewDesc fd ev w = (Returned (Some l, None), w') ->
  l = length (descs w) /\
  descs w' =
    descs w ++ [{| file := Some (length (files (sys w))); event := ev;
                   desc := int_of_uintptr fd |}] /\
  files (sys w') =
    files (sys w) ++ [{| f_sysfd := int_of_uintptr fd; f_nonblock := false;
                         f_name := "" |}] /\
  fdtab (sys w') = <[int_of_uintptr fd := true]> (fdtab (sys w)).
Proof.
  intros Hge.
  destruct (NewFile_nonneg (sys w) fd "" Hge)
    as (Hf & Htab & _ & _ & _ & Heff & Hn).
  assert (Hfiles : files (NewFile_sys (sys w) fd "") =
                   files (sys w) ++ [{| f_sysfd := int_of_uintptr fd;
                                        f_nonblock := false; f_name := "" |}]).
  { unfold NewFile_sys.
    destruct (int_of_uintptr fd <? 0) eqn:E; [apply Z.ltb_lt in E; lia|done]. }
  rewrite NewDesc_run, attach_run. simpl sys. rewrite Heff, Hn.
  destruct (setnonblock_errno _ _);
    unfold attach_failed, attach_succeeded, mkWorld; [done|].
  simpl sys. simpl descs. rewrite Heff, Hn, Hf.
  intros [= <- <-]. simpl. by rewrite Htab, Hfiles.
Qed.

(** X5.  [NewDesc] wraps the descriptor it is given and makes no copy of
    it: two successful calls on one descriptor give two Descs, each with a
    file of its own, on the same descriptor number.  Closing the first
    releases that descriptor, and the second then still answers the number
    from [Fd], and its file still holds it, although it is no longer
    open. *)
Theorem NewDesc_does_not_duplicate fd ev1 ev2 w l1 w1 l2 w2 :
  0 <= int_of_uintptr fd ->
  NewDesc fd ev1 w = (Returned (Some l1, None), w1) ->
  NewDesc fd ev2 w1 = (Returned (Some l2, None), w2) ->
  l1 <> l2 /\
  (exists d1 d2,
     descs w2 !! l1 = Some d1 /\ descs w2 !! l2 = Some d2 /\
     file d1 <> file d2 /\
     desc d1 = int_of_uintptr fd /\ desc d2 = int_of_uintptr fd /\
     fdtab (sys (snd (Close (Some l1) w2))) !! int_of_uintptr fd = None /\
     fst (Fd (Some l2) (snd (Close (Some l1) w2))) =
       Returned (int_of_uintptr fd) /\
     file_sysfd (sys (snd (Close (Some l1) w2))) (file d2) =
       int_of_uintptr fd).
Proof.
  intros Hge H1 H2.
  destruct (NewDesc_success_nonneg _ _ _ _ _ Hge H1) as (-> & Hds1 & Hfs1 & _).
  destruct (NewDesc_success_nonneg _ _ _ _ _ Hge H2) as (-> & Hds2 & Hfs2 & _).
  set (n := int_of_uintptr fd) in *.
  set (o := {| f_sysfd := n; f_nonblock := false; f_name := "" |}) in *.
  set (lf := length (files (sys w))) in *.
  set (D1 := {| file := Some lf; event := ev1; desc := n |}) in *.
  set (D2 := {| file := Some (length (files (sys w1))); event := ev2;
                desc := n |}) in *.
  assert (Hlen : length (descs w1) = S (length (descs w))).
  { rewrite Hds1, length_app. simpl. lia. }
  assert (Hlf : length (files (sys w1)) = S lf).
  { rewrite Hfs1, length_app. simpl. unfold lf. lia. }
  assert (HD1 : descs w2 !! length (descs w) = Some D1).
  { rewrite Hds2, Hds1, <- app_assoc. by apply list_lookup_middle. }
  assert (HD2 : descs w2 !! length (descs w1) = Some D2).
  { rewrite Hds2. by apply list_lookup_middle. }
  assert (Ho1 : files (sys w2) !! lf = Some o).
  { rewrite Hfs2, Hfs1, <- app_assoc. by apply list_lookup_middle. }
  assert (Ho2 : files (sys w2) !! S lf = Some o).
  { rewrite Hfs2. apply list_lookup_middle. by rewrite Hlf. }
  assert (Hn1 : n <> -1) by (unfold n; lia).
  split; [lia|]. exists D1, D2.
  split; [done|]. split; [done|].
  split; [simpl; rewrite Hlf; intros [=]; lia|].
  split; [done|]. split; [done|].
  rewrite (Close_run _ _ _ HD1). simpl snd. simpl file.
  set (w3 := mkWorld _ _ _).
  assert (Hsys : file_sysfd (sys w2) (Some lf) = n).
  { unfold file_sysfd. simpl. by rewrite Ho1. }
  split; [|split].
  - simpl. rewrite <- Hsys. apply close_effect_fdtab. rewrite Hsys. done.
  - assert (HD2' : descs w3 !! length (descs w1) = Some D2) by done.
    rewrite (Fd_run _ _ _ HD2'). simpl desc.
    destruct (n =? -1) eqn:E; [apply Z.eqb_eq in E; done|done].
  - simpl. rewrite Hlf. unfold close_effect, file_sysfd. simpl.
    rewrite Ho1. simpl.
    destruct (n =? -1) eqn:E; [apply Z.eqb_eq in E; done|]. simpl.
    rewrite list_lookup_insert_ne by lia. by rewrite Ho2.
Qed.

Lemma NewDesc_does_not_duplicate_witness :
  fdtab (sys (snd (Close (Some 0%nat)
                     (snd (NewDesc 3 5 (snd (NewDesc 3 9 (world0 [])))))))) !! 3
    = None /\
  fst (Fd (Some 1%nat)
         (snd (Close (Some 0%nat)
                 (snd (NewDesc 3 5 (snd (NewDesc 3 9 (world0 []))))))))
    = Returned 3.
Proof.
  destruct (NewDesc_does_not_duplicate 3 9 5 (world0 []) 0%nat
              (snd (NewDesc 3 9 (world0 []))) 1%nat
              (snd (NewDesc 3 5 (snd (NewDesc 3 9 (world0 [])))))
              ltac:(vm_compute; discriminate) eq_refl eq_refl)
    as (_ & d1 & d2 & _ & _ & _ & _ & _ & Ht & HF & _).
  by split.
Defined.

(** ** A File method that gives a nil file *)

(** X13.  When the [File] method of the object gives a nil file and a nil
    error, [handle] does not panic: with [-1] not an open descriptor,
    [SetNonblock(-1, true)] fails with EBADF, [Close] is called on the nil
    file, and [handle] returns a nil Desc and the wrapped EBADF, leaving the
    system as [File] left it. *)
Theorem handle_of_nil_file_fails x ev w m s1 :
  as_filer x = Some m ->
  m (sys w) = (Returned (None, None), s1) ->
  fdtab s1 !! (-1) = None ->
  exists w',
    handle x ev w =
      (Returned (None, Some (SyscallError "setnonblock" (Errno EBADF))), w') /\
    sys w' = s1 /\
    calls_since w w' =
      [CallFile (obj_id x) None None;
       CallFileFd None (2 ^ 64 - 1); CallFileFd None (2 ^ 64 - 1);
       CallSetNonblock (-1) true (Some (Errno EBADF));
       CallFileClose None (Some ErrInvalid)].
Proof.
  intros Hm Hf Hm1. rewrite (handle_run _ ev _ _ _ _ Hm Hf), attach_run.
  simpl sys.
  change (fd_effect s1 None) with s1.
  change (file_fd_int s1 None) with (-1).
  unfold setnonblock_errno. rewrite Hm1.
  unfold attach_failed, mkWorld. simpl sys.
  change (fd_effect s1 None) with s1.
  change (file_fd_int s1 None) with (-1).
  eexists. split; [reflexivity|]. split; [done|].
  apply calls_since_app. simpl. by rewrite <- app_assoc.
Qed.

Lemma handle_of_nil_file_fails_witness :
  fst (handle {| obj_id := 4;
                 obj_File := Some (fun s => (Returned (None, None), s)) |} 9 (world0 []))
    = Returned (None, Some (SyscallError "setnonblock" (Errno EBADF))).
Proof.
  destruct (handle_of_nil_file_fails
              {| obj_id := 4; obj_File := Some (fun s => (Returned (None, None), s)) |}
              9 (world0 []) (fun s => (Returned (None, None), s)) (sys0 [])
              eq_refl eq_refl ltac:(vm_compute; reflexivity))
    as (w' & -> & _).
  reflexivity.
Defined.

(** ** The interest is only stored *)

Lemma attach_up_to_interest ev1 ev2 f w0 w :
  descs w = descs w0 ->
  agree_up_to_interest ev1 ev2 w0 (attach f ev1 w) (attach f ev2 w).
Proof.
  intros Hds. unfold agree_up_to_interest. rewrite !attach_run.
  destruct (setnonblock_errno _ _);
    unfold attach_failed, attach_succeeded, mkWorld; simpl;
    (split; [done|]; split; [done|]; split; [done|]);
    eexists [_], [_]; rewrite Hds;
    (split; [done|]; split; [done|]);
    by apply Forall2_cons_2; [|apply Forall2_nil_2].
Qed.

(** X14.  The interest given to a constructor is stored in the Desc and
    not looked at: [handle] and [NewDesc] run with two interests from the
    same world return the same results, make the same calls and leave the
    same system, and the Descs they allocate differ in the [event] field
    only.  So the five shorthands and [Handle] differ in nothing else. *)
Theorem constructors_only_store_the_interest ev1 ev2 w :
  (forall x,
     agree_up_to_interest ev1 ev2 w (handle x ev1 w) (handle x ev2 w)) /\
  (forall x,
     agree_up_to_interest ev1 ev2 w (Handle x ev1 w) (Handle x ev2 w)) /\
  (forall fd,
     agree_up_to_interest ev1 ev2 w (NewDesc fd ev1 w) (NewDesc fd ev2 w)).
Proof.
  assert (Hh : forall x,
            agree_up_to_interest ev1 ev2 w (handle x ev1 w) (handle x ev2 w)).
  { intros x. destruct (as_filer x) as [m|] eqn:Hm.
    - destruct (m (sys w)) as [[[f [e|]]|v] s1] eqn:Hf.
      + rewrite !(handle_run_extraction_failed _ _ _ _ _ _ _ Hm Hf).
        repeat split. exists [], []. simpl. rewrite app_nil_r.
        repeat split. apply Forall2_nil_2.
      + rewrite !(handle_run _ _ _ _ _ _ Hm Hf).
        by apply attach_up_to_interest.
      + rewrite !(handle_run_File_panicked _ _ _ _ _ _ Hm Hf).
        repeat split. exists [], []. simpl. rewrite app_nil_r.
        repeat split. apply Forall2_nil_2.
    - unfold handle. rewrite Hm.
      repeat split. exists [], []. simpl. rewrite app_nil_r.
      repeat split. apply Forall2_nil_2. }
  split; [exact Hh|]. split.
  - intros x. rewrite !Handle_handle. apply Hh.
  - intros fd. rewrite !NewDesc_run. by apply attach_up_to_interest.
Qed.
